(** * OrderForm.tsx: the order form, its validation schema and its price logic

    A shallow embedding of [src/components/OrderForm.tsx].  The component is
    a Formik form validated by a Yup schema; one child component,
    [PriceCalculator], keeps the derived field [pricePerKg] in step with the
    selected [category] through a React effect, and [handleSubmit] logs the
    values together with a total price and resets the form.

    ECMAScript values are modelled as the language defines them: strings are
    sequences of UTF-16 code units, numbers are IEEE-754 binary64 values
    (the Standard Library's [spec_float] at precision 53), and property
    lookup on an object literal falls back to [Object.prototype]. *)

From Stdlib Require Import ZArith QArith Qround Qpower List String Ascii Bool Lia Setoid.
From Stdlib Require Import SpecFloat DecimalString DecimalN.
Import ListNotations.

Local Open Scope Z_scope.

(** ** ECMAScript strings *)

Module JsString.

(** A string value is a finite sequence of 16-bit code units; [length]
    counts code units, as the [length] property does. *)
Definition code_unit := N.
Definition t := list code_unit.

Definition eq_dec : forall a b : t, {a = b} + {a <> b} :=
  list_eq_dec N.eq_dec.

Definition eqb (a b : t) : bool := if eq_dec a b then true else false.

(** ASCII literals of the source text. *)
Fixpoint lit (s : string) : t :=
  match s with
  | EmptyString => []
  | String c r => N_of_ascii c :: lit r
  end.

(** [Boolean(s)]: a string is truthy unless it is empty. *)
Definition truthy (s : t) : bool :=
  match s with
  | [] => false
  | _ :: _ => true
  end.

Definition mem (s : t) (l : list t) : bool := existsb (eqb s) l.

End JsString.

Definition jsstring : Type := JsString.t.
Notation "'js' s" := (JsString.lit s) (at level 9, s at level 0, only parsing).

(** ** ECMAScript numbers *)

Module JsNumber.

(** binary64: 53 bits of precision, infinities at exponent 1024. *)
Definition prec : Z := 53.
Definition emax : Z := 1024.

Definition t := spec_float.

Definition valid (x : t) : bool := valid_binary prec emax x.

Definition NaN : t := S754_nan.
Definition zero : t := S754_zero false.

(** An integer literal of the source, rounded to the nearest double. *)
Definition of_Z (z : Z) : t := binary_normalize prec emax z 0 false.

(** The literal [0.1]: the double nearest to one tenth,
    [0x1.999999999999Ap-4]. *)
Definition one_tenth : t := S754_finite false 7205759403792794 (-56).

(** [x * y] *)
Definition mul (x y : t) : t := SFmul prec emax x y.

(** [x >= y] *)
Definition geb (x y : t) : bool := SFleb y x.

Definition is_nan (x : t) : bool :=
  match x with S754_nan => true | _ => false end.

(** The mathematical value of a finite number (0 for the others). *)
Definition to_Q (x : t) : Q :=
  match x with
  | S754_finite s m e =>
      let v := (inject_Z (Zpos m) * Qpower 2 e)%Q in
      if s then Qopp v else v
  | _ => 0%Q
  end.

(** *** Decimal digits *)

Definition digits (n : N) : jsstring :=
  JsString.lit (NilZero.string_of_uint (N.to_uint n)).

Definition zeros (k : nat) : jsstring := repeat 48%N k.

(** *** [Number::toString] for the values [toFixed] hands over to it

    Non-finite values print as names.  A finite value of magnitude at
    least 10^21 is an integer [v]; it prints in exponential form with the
    fewest digits [k] such that some [s * 10^(n-k)] rounds back to [v]. *)

(** Twice the distance from [m * 2^e] (with [e > 0]) to the lower and
    upper ends of the set of reals that round to it. *)
Definition gap_below (m : positive) (e : Z) : Z :=
  if Pos.eqb m 4503599627370496 then 2 ^ (e - 1) else 2 ^ e.
Definition gap_above (e : Z) : Z := 2 ^ e.

Definition rounds_to (m : positive) (e : Z) (c : Z) : bool :=
  let v2 := 2 * (Zpos m * 2 ^ e) in
  let lo := v2 - gap_below m e in
  let hi := v2 + gap_above e in
  if Z.even (Zpos m)
  then Z.leb lo (2 * c) && Z.leb (2 * c) hi
  else Z.ltb lo (2 * c) && Z.ltb (2 * c) hi.

Definition decimal_length (v : Z) : nat :=
  List.length (digits (Z.to_N v)).

(** The candidate with [k] digits: the multiple of [10^(n-k)] nearest to
    [v], if it rounds to [v]. *)
Definition candidate (m : positive) (e : Z) (n k : nat) : option Z :=
  let v := Zpos m * 2 ^ e in
  let u := 10 ^ Z.of_nat (n - k) in
  let lo := (v / u) * u in
  let hi := lo + u in
  let near := if Z.leb (v - lo) (hi - v) then lo else hi in
  let far := if Z.leb (v - lo) (hi - v) then hi else lo in
  if rounds_to m e near then Some near
  else if rounds_to m e far then Some far
  else None.

Fixpoint shortest (m : positive) (e : Z) (n k : nat) (fuel : nat) : Z :=
  match fuel with
  | O => Zpos m * 2 ^ e
  | S fuel' =>
      match candidate m e n k with
      | Some c => c
      | None => shortest m e n (S k) fuel'
      end
  end.

Fixpoint strip_zeros (rev_digits : jsstring) : jsstring :=
  match rev_digits with
  | 48%N :: r => strip_zeros r
  | _ => rev_digits
  end.

Definition exponential (c : Z) : jsstring :=
  let ds := digits (Z.to_N c) in
  let n := List.length ds in
  let sig := rev (strip_zeros (rev ds)) in
  let expo := JsString.lit "e+" ++ digits (N.of_nat (n - 1)) in
  match sig with
  | [] => ds
  | [d] => d :: expo
  | d :: rest => d :: JsString.lit "." ++ rest ++ expo
  end.

Definition toString_large (m : positive) (e : Z) : jsstring :=
  let n := decimal_length (Zpos m * 2 ^ e) in
  exponential (shortest m e n 1 n).

(** *** [Number.prototype.toFixed(f)]

    Steps of the ECMAScript algorithm: a non-finite value prints by name;
    the sign is split off; a magnitude of at least 10^21 goes to
    [Number::toString]; otherwise [n] is the integer for which
    [n / 10^f - x] is as close to zero as possible, the larger one when
    there are two, printed with [f] digits after the point. *)

Definition pow10 (f : nat) : Q := inject_Z (10 ^ Z.of_nat f).

Definition nearest_scaled (f : nat) (x : Q) : Z :=
  Qfloor (x * pow10 f + (1 # 2))%Q.

Definition fixed_digits (f : nat) (n : Z) : jsstring :=
  let m := digits (Z.to_N n) in
  match f with
  | O => m
  | _ =>
      let k := List.length m in
      let m := if Nat.leb k f then zeros (f + 1 - k) ++ m else m in
      let k := List.length m in
      firstn (k - f) m ++ JsString.lit "." ++ skipn (k - f) m
  end.

Definition toFixed (f : nat) (x : t) : jsstring :=
  match x with
  | S754_nan => JsString.lit "NaN"
  | S754_infinity false => JsString.lit "Infinity"
  | S754_infinity true => JsString.lit "-Infinity"
  | S754_zero _ => fixed_digits f 0
  | S754_finite s m e =>
      let sign := if s then JsString.lit "-" else [] in
      let r := to_Q (S754_finite false m e) in
      if Qle_bool (inject_Z (10 ^ 21)) r
      then sign ++ toString_large m e
      else sign ++ fixed_digits f (nearest_scaled f r)
  end.

End JsNumber.

Definition number : Type := JsNumber.t.

(** ** ECMAScript values reaching the number fields *)

(** [weight] and [pricePerKg] are declared [number].  At run time [weight]
    may also hold the empty string, which Formik stores when a number
    input has no parsable content, and [pricePerKg] holds whatever the
    property lookup of the effect returned: a number, [undefined], or a
    member inherited from [Object.prototype]. *)
Inductive JsValue :=
| VNumber (x : number)
| VEmptyString
| VUndefined
| VObjectPrototype (name : jsstring).

(** [ToNumber]: the empty string converts to 0; [undefined], functions
    and plain objects convert to NaN. *)
Definition ToNumber (v : JsValue) : number :=
  match v with
  | VNumber x => x
  | VEmptyString => JsNumber.zero
  | VUndefined => JsNumber.NaN
  | VObjectPrototype _ => JsNumber.NaN
  end.

(** Property names every object literal inherits from [Object.prototype]. *)
Definition object_prototype_keys : list jsstring :=
  map JsString.lit
    ["constructor"; "hasOwnProperty"; "isPrototypeOf"; "propertyIsEnumerable";
     "toLocaleString"; "toString"; "valueOf"; "__proto__";
     "__defineGetter__"; "__defineSetter__";
     "__lookupGetter__"; "__lookupSetter__"]%string.

(** An object literal with number-valued own properties, in source order. *)
Definition JsObject := list (jsstring * number).

Fixpoint own_property (o : JsObject) (key : jsstring) : option number :=
  match o with
  | [] => None
  | (k, v) :: rest => if JsString.eqb key k then Some v else own_property rest key
  end.

(** [o[key]]: own property first, then the prototype, else [undefined]. *)
Definition get (o : JsObject) (key : jsstring) : JsValue :=
  match own_property o key with
  | Some v => VNumber v
  | None =>
      if JsString.mem key object_prototype_keys
      then VObjectPrototype key
      else VUndefined
  end.

(** [Object.keys(o)] *)
Definition keys (o : JsObject) : list jsstring := map fst o.

(** ** The price table *)

Definition categoryPrices : JsObject :=
  [ (js"Amazon cat A", JsNumber.of_Z 20);
    (js"Amazon cat B", JsNumber.of_Z 25);
    (js"Aliexpress",   JsNumber.of_Z 35);
    (js"Temu",         JsNumber.of_Z 50) ].

(** ** Form values *)

Module Field.
Inductive name :=
| username | tel | email | delivery | restrictions
| deliveryTime | message | weight | pricePerKg | category.

Definition eq_dec : forall a b : name, {a = b} + {a <> b}.
Proof. decide equality. Defined.

Definition eqb (a b : name) : bool := if eq_dec a b then true else false.

Definition all : list name :=
  [username; tel; email; delivery; restrictions;
   deliveryTime; message; weight; pricePerKg; category].
End Field.

Record FormValues := {
  username : jsstring;
  tel : jsstring;
  email : jsstring;
  delivery : jsstring;
  restrictions : list jsstring;
  deliveryTime : jsstring;
  message : jsstring;
  weight : JsValue;
  pricePerKg : JsValue;
  category : jsstring
}.

(** The seed name is Cyrillic: six code units U+0420 U+0443 U+0441 U+043B
    U+0430 U+043D. *)
Definition initialFormValues : FormValues := {|
  username := [1056; 1091; 1089; 1083; 1072; 1085]%N;
  tel := js"232342432424";
  email := js"youremail@mail.com";
  delivery := js"pickup";
  restrictions := [];
  deliveryTime := js"afternoon";
  message := [];
  weight := VNumber (JsNumber.of_Z 1);
  pricePerKg := VNumber JsNumber.zero;
  category := []
|}.

(** ** The validation library: Yup schemas as data *)

Module Yup.

(** What a schema is run on: a string or [undefined] ([None]); a value of
    a number field; an array of strings, each possibly [undefined]. *)
Inductive Value :=
| StringValue (s : option jsstring)
| NumberValue (v : JsValue)
| ArrayValue (l : list (option jsstring)).

(** Tests of a string schema, with the message given in the source;
    [oneOf] is always used without one. *)
Inductive StringTest :=
| s_min (limit : nat) (msg : jsstring)
| s_max (limit : nat) (msg : jsstring)
| s_email (msg : jsstring)
| s_oneOf (allowed : list jsstring)
| s_required (msg : jsstring).

Inductive NumberTest :=
| n_min (limit : number) (msg : jsstring)
| n_required (msg : jsstring).

Inductive Schema :=
| string_ (tests : list StringTest)
| number_ (tests : list NumberTest)
| array_of_string (tests : list StringTest).

Inductive TestName :=
| t_min | t_max | t_email | t_oneOf | t_required | t_typeError.

(** One entry of [ValidationError.inner]: the path (a field, and an index
    inside an array field), the name of the failed test and its message;
    [None] stands for the library's default wording. *)
Record ValidationError := {
  err_field : Field.name;
  err_index : option nat;
  err_type : TestName;
  err_message : option jsstring
}.

(** *** The e-mail pattern

    [^[a-zA-Z0-9.!#$%&'*+/=?^_`{|}~-]+@L(\.L)*$] where a label [L] is
    [[a-zA-Z0-9]([a-zA-Z0-9-]{0,61}[a-zA-Z0-9])?]. *)

Definition is_alnum (c : N) : bool :=
  ((48 <=? c) && (c <=? 57) || (65 <=? c) && (c <=? 90)
   || (97 <=? c) && (c <=? 122))%N.

Definition is_local_char (c : N) : bool :=
  is_alnum c || existsb (N.eqb c) (JsString.lit ".!#$%&'*+/=?^_`{|}~-").

Definition is_label_char (c : N) : bool := is_alnum c || N.eqb c 45.

(** Splits at the first occurrence of [sep]. *)
Fixpoint split_first (sep : N) (s : jsstring) : option (jsstring * jsstring) :=
  match s with
  | [] => None
  | c :: r =>
      if N.eqb c sep then Some ([], r)
      else match split_first sep r with
           | Some (a, b) => Some (c :: a, b)
           | None => None
           end
  end.

(** Splits at every occurrence of [sep]. *)
Fixpoint split_all (sep : N) (s : jsstring) : list jsstring :=
  match s with
  | [] => [[]]
  | c :: r =>
      match split_all sep r with
      | [] => [[c]]
      | hd :: tl => if N.eqb c sep then [] :: hd :: tl else (c :: hd) :: tl
      end
  end.

Definition label_ok (l : jsstring) : bool :=
  match l, rev l with
  | first :: _, last :: _ =>
      is_alnum first && is_alnum last && forallb is_label_char l
      && Nat.leb (List.length l) 63
  | _, _ => false
  end.

Definition rEmail (s : jsstring) : bool :=
  match split_first 64 s with
  | Some (local_part, domain) =>
      negb (Nat.eqb (List.length local_part) 0)
      && forallb is_local_char local_part
      && forallb label_ok (split_all 46 domain)
  | None => false
  end.

(** *** Running a schema *)

Definition string_test_ok (t : StringTest) (s : jsstring) : bool :=
  match t with
  | s_min limit _ => Nat.leb limit (List.length s)
  | s_max limit _ => Nat.leb (List.length s) limit
  | s_email _ => Nat.eqb (List.length s) 0 || rEmail s
  | s_oneOf allowed => JsString.mem s allowed
  | s_required _ => negb (Nat.eqb (List.length s) 0)
  end.

Definition string_test_error (f : Field.name) (i : option nat) (t : StringTest)
  : ValidationError :=
  match t with
  | s_min _ msg => Build_ValidationError f i t_min (Some msg)
  | s_max _ msg => Build_ValidationError f i t_max (Some msg)
  | s_email msg => Build_ValidationError f i t_email (Some msg)
  | s_oneOf _ => Build_ValidationError f i t_oneOf None
  | s_required msg => Build_ValidationError f i t_required (Some msg)
  end.

Definition is_oneOf (t : StringTest) : bool :=
  match t with s_oneOf _ => true | _ => false end.

Definition is_required (t : StringTest) : bool :=
  match t with s_required _ => true | _ => false end.

Definition failing (tests : list StringTest) (s : jsstring) : list StringTest :=
  filter (fun t => negb (string_test_ok t s)) tests.

(** A string schema.  On a string the [oneOf] test runs first and, when
    it fails, is all that is reported; otherwise every other failing test
    is reported, in source order.  On [undefined] every test is skipped
    but [required], which fails. *)
Definition validate_string (tests : list StringTest) (f : Field.name)
    (i : option nat) (v : option jsstring) : list ValidationError :=
  match v with
  | Some s =>
      match failing (filter is_oneOf tests) s with
      | [] => map (string_test_error f i)
                  (failing (filter (fun t => negb (is_oneOf t)) tests) s)
      | bad => map (string_test_error f i) bad
      end
  | None => map (string_test_error f i) (filter is_required tests)
  end.

Definition type_error (f : Field.name) : ValidationError :=
  Build_ValidationError f None t_typeError None.

(** A number schema: a value that is not a number (or is NaN, as the
    empty string is once cast) fails the type check and nothing else
    runs; [undefined] is absent, so only [required] can fail; a number
    meets [min] when [value >= limit]. *)
Definition number_test_errors (f : Field.name) (v : JsValue) (t : NumberTest)
  : list ValidationError :=
  match t, v with
  | n_min limit msg, VNumber x =>
      if JsNumber.geb x limit then []
      else [Build_ValidationError f None t_min (Some msg)]
  | n_min _ _, _ => []
  | n_required msg, VUndefined =>
      [Build_ValidationError f None t_required (Some msg)]
  | n_required _, _ => []
  end.

Definition validate_number (tests : list NumberTest) (f : Field.name)
    (v : JsValue) : list ValidationError :=
  match v with
  | VObjectPrototype _ => [type_error f]
  | VEmptyString => [type_error f]
  | VNumber x =>
      if JsNumber.is_nan x then [type_error f]
      else flat_map (number_test_errors f v) tests
  | VUndefined => flat_map (number_test_errors f v) tests
  end.

(** The elements of an array are validated one by one, at paths
    [field[0]], [field[1]], ... *)
Fixpoint validate_elements (tests : list StringTest) (f : Field.name)
    (i : nat) (l : list (option jsstring)) : list ValidationError :=
  match l with
  | [] => []
  | s :: r => validate_string tests f (Some i) s
              ++ validate_elements tests f (S i) r
  end.

Definition validate_value (sch : Schema) (f : Field.name) (v : Value)
  : list ValidationError :=
  match sch, v with
  | string_ tests, StringValue s => validate_string tests f None s
  | number_ tests, NumberValue x => validate_number tests f x
  | array_of_string tests, ArrayValue l => validate_elements tests f 0 l
  | _, _ => [type_error f]
  end.

(** [Yup.object().shape(...)]: the fields in the order they are given,
    run on the properties of the object handed to [validate]. *)
Definition ObjectSchema := list (Field.name * Schema).

Definition validate (shape : ObjectSchema) (data : Field.name -> Value)
  : list ValidationError :=
  flat_map (fun entry => validate_value (snd entry) (fst entry)
                                        (data (fst entry))) shape.

(** The errors filed under one field. *)
Definition errors_at (f : Field.name) (errs : list ValidationError)
  : list ValidationError :=
  filter (fun e => Field.eqb (err_field e) f) errs.

End Yup.

(** ** The schema of the form *)

Definition OrderSchema : Yup.ObjectSchema :=
  [ (Field.username, Yup.string_ [Yup.s_min 2 js"Too Short!"; Yup.s_required js"Required"]);
    (Field.tel, Yup.string_ [Yup.s_min 5 js"Too Short!"; Yup.s_required js"Required"]);
    (Field.email, Yup.string_ [Yup.s_email js"Invalid email"; Yup.s_required js"Required"]);
    (Field.delivery,
      Yup.string_ [Yup.s_oneOf [js"pickup"; js"courier"; js"drone"];
                   Yup.s_required js"Required"]);
    (Field.restrictions,
      Yup.array_of_string [Yup.s_oneOf [js"vegan"; js"gluten-free"; js"nut-free"]]);
    (Field.deliveryTime, Yup.string_ [Yup.s_required js"Required"]);
    (Field.message, Yup.string_ [Yup.s_max 200 js"Too long!"]);
    (Field.weight,
      Yup.number_ [Yup.n_min JsNumber.one_tenth js"Min 0.1kg"; Yup.n_required js"Required"]);
    (Field.pricePerKg,
      Yup.number_ [Yup.n_min JsNumber.one_tenth (js"Min 0.1 z" ++ [322%N]);
                   Yup.n_required js"Required"]);
    (Field.category, Yup.string_ [Yup.s_required js"Required"]) ].

(** The values object as it is, as [OrderSchema.validate(values)] would
    see it. *)
Definition as_given (v : FormValues) (f : Field.name) : Yup.Value :=
  match f with
  | Field.username => Yup.StringValue (Some (username v))
  | Field.tel => Yup.StringValue (Some (tel v))
  | Field.email => Yup.StringValue (Some (email v))
  | Field.delivery => Yup.StringValue (Some (delivery v))
  | Field.restrictions => Yup.ArrayValue (map Some (restrictions v))
  | Field.deliveryTime => Yup.StringValue (Some (deliveryTime v))
  | Field.message => Yup.StringValue (Some (message v))
  | Field.weight => Yup.NumberValue (weight v)
  | Field.pricePerKg => Yup.NumberValue (pricePerKg v)
  | Field.category => Yup.StringValue (Some (category v))
  end.

(** ** calculatePrice *)

Definition calculatePrice (weight pricePerKg : number) : jsstring :=
  JsNumber.toFixed 2 (JsNumber.mul weight pricePerKg).

(** ** The form: Formik state, the price effect and submission *)

(** Before it runs the schema, Formik copies the values and replaces
    every empty string, also inside an array, by [undefined]
    ([prepareDataForValidation] in [validateYupSchema]). *)
Definition blank_string (s : jsstring) : option jsstring :=
  match s with
  | [] => None
  | _ :: _ => Some s
  end.

Definition blank_value (v : JsValue) : JsValue :=
  match v with
  | VEmptyString => VUndefined
  | _ => v
  end.

Definition prepareDataForValidation (v : FormValues) (f : Field.name)
  : Yup.Value :=
  match f with
  | Field.username => Yup.StringValue (blank_string (username v))
  | Field.tel => Yup.StringValue (blank_string (tel v))
  | Field.email => Yup.StringValue (blank_string (email v))
  | Field.delivery => Yup.StringValue (blank_string (delivery v))
  | Field.restrictions => Yup.ArrayValue (map blank_string (restrictions v))
  | Field.deliveryTime => Yup.StringValue (blank_string (deliveryTime v))
  | Field.message => Yup.StringValue (blank_string (message v))
  | Field.weight => Yup.NumberValue (blank_value (weight v))
  | Field.pricePerKg => Yup.NumberValue (blank_value (pricePerKg v))
  | Field.category => Yup.StringValue (blank_string (category v))
  end.

Definition validateYupSchema (v : FormValues) : list Yup.ValidationError :=
  Yup.validate OrderSchema (prepareDataForValidation v).

(** What [console.log] receives: the values spread into a new object, with
    [totalPrice] added. *)
Record LogEntry := {
  logged : FormValues;
  totalPrice : jsstring
}.

(** Formik's [values], [errors] and [touched]; the value of
    [values.category] the effect of [PriceCalculator] last ran with ([None]
    before the first render is committed); and the console. *)
Record FormState := {
  values : FormValues;
  errors : list Yup.ValidationError;
  touched : list Field.name;
  effect_deps : option jsstring;
  console : list LogEntry
}.

Definition with_values (v : FormValues) (st : FormState) : FormState :=
  {| values := v; errors := validateYupSchema v;
     touched := touched st; effect_deps := effect_deps st;
     console := console st |}.

(** [setFieldValue(field, value)]: stores the value and, as
    [validateOnChange] is on, validates the new values.  One function per
    field written by the form. *)
Definition set_username (s : jsstring) (v : FormValues) : FormValues :=
  {| username := s; tel := tel v; email := email v; delivery := delivery v;
     restrictions := restrictions v; deliveryTime := deliveryTime v;
     message := message v; weight := weight v; pricePerKg := pricePerKg v;
     category := category v |}.

Definition set_tel (s : jsstring) (v : FormValues) : FormValues :=
  {| username := username v; tel := s; email := email v; delivery := delivery v;
     restrictions := restrictions v; deliveryTime := deliveryTime v;
     message := message v; weight := weight v; pricePerKg := pricePerKg v;
     category := category v |}.

Definition set_email (s : jsstring) (v : FormValues) : FormValues :=
  {| username := username v; tel := tel v; email := s; delivery := delivery v;
     restrictions := restrictions v; deliveryTime := deliveryTime v;
     message := message v; weight := weight v; pricePerKg := pricePerKg v;
     category := category v |}.

Definition set_delivery (s : jsstring) (v : FormValues) : FormValues :=
  {| username := username v; tel := tel v; email := email v; delivery := s;
     restrictions := restrictions v; deliveryTime := deliveryTime v;
     message := message v; weight := weight v; pricePerKg := pricePerKg v;
     category := category v |}.

Definition set_deliveryTime (s : jsstring) (v : FormValues) : FormValues :=
  {| username := username v; tel := tel v; email := email v;
     delivery := delivery v; restrictions := restrictions v; deliveryTime := s;
     message := message v; weight := weight v; pricePerKg := pricePerKg v;
     category := category v |}.

Definition set_message (s : jsstring) (v : FormValues) : FormValues :=
  {| username := username v; tel := tel v; email := email v;
     delivery := delivery v; restrictions := restrictions v;
     deliveryTime := deliveryTime v; message := s; weight := weight v;
     pricePerKg := pricePerKg v; category := category v |}.

Definition set_weight (x : JsValue) (v : FormValues) : FormValues :=
  {| username := username v; tel := tel v; email := email v;
     delivery := delivery v; restrictions := restrictions v;
     deliveryTime := deliveryTime v; message := message v; weight := x;
     pricePerKg := pricePerKg v; category := category v |}.

Definition set_pricePerKg (x : JsValue) (v : FormValues) : FormValues :=
  {| username := username v; tel := tel v; email := email v;
     delivery := delivery v; restrictions := restrictions v;
     deliveryTime := deliveryTime v; message := message v; weight := weight v;
     pricePerKg := x; category := category v |}.

Definition set_category (s : jsstring) (v : FormValues) : FormValues :=
  {| username := username v; tel := tel v; email := email v;
     delivery := delivery v; restrictions := restrictions v;
     deliveryTime := deliveryTime v; message := message v; weight := weight v;
     pricePerKg := pricePerKg v; category := s |}.

(** *** PriceCalculator

    The effect has [values.category] in its dependency array: it runs after
    the first render and after every render in which the category differs
    from the one it last ran with. *)

Definition deps_changed (deps : option jsstring) (c : jsstring) : bool :=
  match deps with
  | None => true
  | Some c' => negb (JsString.eqb c c')
  end.

(** The value the effect hands to [setFieldValue].  It is stored as it
    is; for a value that is a function (an inherited method) Formik
    releases differ, and no property below is about that case. *)
Definition derived_price (c : jsstring) : JsValue :=
  if JsString.truthy c then get categoryPrices c
  else VNumber JsNumber.zero.

Definition PriceCalculator_effect (st : FormState) : FormState :=
  let c := category (values st) in
  if deps_changed (effect_deps st) c then
    let st' := with_values (set_pricePerKg (derived_price c) (values st)) st in
    {| values := values st'; errors := errors st'; touched := touched st';
       effect_deps := Some c; console := console st' |}
  else st.

(** What [PriceCalculator] renders: the price per kilogram as it is, and
    the total; [*] converts its operands with [ToNumber]. *)
Definition rendered_total (st : FormState) : jsstring :=
  calculatePrice (ToNumber (weight (values st)))
                 (ToNumber (pricePerKg (values st))).

(** *** OrderForm *)

(** [formikHelpers.resetForm()]: back to [initialValues], with no errors
    and nothing touched. *)
Definition resetForm (st : FormState) : FormState :=
  {| values := initialFormValues; errors := []; touched := [];
     effect_deps := effect_deps st; console := console st |}.

Definition handleSubmit (vals : FormValues) (st : FormState) : FormState :=
  let entry := {| logged := vals;
                  totalPrice := calculatePrice (ToNumber (weight vals))
                                               (ToNumber (pricePerKg vals)) |} in
  resetForm {| values := values st; errors := errors st; touched := touched st;
               effect_deps := effect_deps st;
               console := console st ++ [entry] |}.

(** Formik's [submitForm]: every field becomes touched, the values are
    validated, and [onSubmit] is called only when there is no error. *)
Definition submitForm (st : FormState) : FormState :=
  let errs := validateYupSchema (values st) in
  let st' := {| values := values st; errors := errs; touched := Field.all;
                effect_deps := effect_deps st; console := console st |} in
  match errs with
  | [] => handleSubmit (values st) st'
  | _ :: _ => st'
  end.

(** The events the rendered form can deliver: a change of one of the eight
    inputs (there is no input for [restrictions] or [pricePerKg]), a blur,
    and a press of the submit button.  A change of the weight carries
    [parseFloat] of the text of the input. *)
Inductive Event :=
| ChangeUsername (s : jsstring)
| ChangeTel (s : jsstring)
| ChangeEmail (s : jsstring)
| ChangeWeight (parsed : number)
| ChangeCategory (s : jsstring)
| ChangeDelivery (s : jsstring)
| ChangeDeliveryTime (s : jsstring)
| ChangeMessage (s : jsstring)
| Blur (f : Field.name)
| Submit.

Definition handle (ev : Event) (st : FormState) : FormState :=
  match ev with
  | ChangeUsername s => with_values (set_username s (values st)) st
  | ChangeTel s => with_values (set_tel s (values st)) st
  | ChangeEmail s => with_values (set_email s (values st)) st
  | ChangeWeight parsed =>
      let val := if JsNumber.is_nan parsed then VEmptyString
                 else VNumber parsed in
      with_values (set_weight val (values st)) st
  | ChangeCategory s => with_values (set_category s (values st)) st
  | ChangeDelivery s => with_values (set_delivery s (values st)) st
  | ChangeDeliveryTime s => with_values (set_deliveryTime s (values st)) st
  | ChangeMessage s => with_values (set_message s (values st)) st
  | Blur f =>
      {| values := values st; errors := validateYupSchema (values st);
         touched := f :: touched st; effect_deps := effect_deps st;
         console := console st |}
  | Submit => submitForm st
  end.

(** The fields that have an input, each with an [ErrorMessage] slot. *)
Definition inputs : list Field.name :=
  [Field.username; Field.tel; Field.email; Field.weight; Field.category;
   Field.delivery; Field.deliveryTime; Field.message].

(** What the select elements and the radio group offer: the empty option
    and [Object.keys(categoryPrices)]; the three radio values; the empty
    option and the three delivery times. *)
Definition category_options : list jsstring := [] :: keys categoryPrices.

Definition delivery_options : list jsstring :=
  [js"pickup"; js"courier"; js"drone"].

Definition deliveryTime_options : list jsstring :=
  [[]; js"morning"; js"afternoon"; js"evening"].

(** The events a user can cause through the rendered elements. *)
Definition deliverable (ev : Event) : bool :=
  match ev with
  | ChangeCategory s => JsString.mem s category_options
  | ChangeDelivery s => JsString.mem s delivery_options
  | ChangeDeliveryTime s => JsString.mem s deliveryTime_options
  | Blur f => existsb (Field.eqb f) inputs
  | _ => true
  end.

(** An event is handled, the form renders again, and the effect runs if
    its dependency changed. *)
Definition dispatch (ev : Event) (st : FormState) : FormState :=
  PriceCalculator_effect (handle ev st).

(** The form as Formik creates it, and after the first render. *)
Definition created : FormState :=
  {| values := initialFormValues; errors := []; touched := [];
     effect_deps := None; console := [] |}.

Definition mounted : FormState := PriceCalculator_effect created.

Definition run_from (st : FormState) (evs : list Event) : FormState :=
  fold_left (fun st ev => dispatch ev st) evs st.

Definition run (evs : list Event) : FormState := run_from mounted evs.

(** The states of the form: those a user can bring it into. *)
Inductive reachable : FormState -> Prop :=
| reachable_mounted : reachable mounted
| reachable_dispatch ev st :
    deliverable ev = true -> reachable st -> reachable (dispatch ev st).

(** [<ErrorMessage name=f />]: the first error of the field, shown once the
    field is touched. *)
Definition ErrorMessage (f : Field.name) (st : FormState)
  : option Yup.ValidationError :=
  if existsb (Field.eqb f) (touched st)
  then hd_error (Yup.errors_at f (errors st))
  else None.

(** * Vocabulary of the properties *)

(** The schema of one field of the form. *)
Definition schema_of (f : Field.name) : option Yup.Schema :=
  option_map snd (find (fun entry => Field.eqb (fst entry) f) OrderSchema).

Definition delivery_methods : list jsstring :=
  [js"pickup"; js"courier"; js"drone"].

Definition restriction_tokens : list jsstring :=
  [js"vegan"; js"gluten-free"; js"nut-free"].

Definition delivery_times : list jsstring :=
  [js"morning"; js"afternoon"; js"evening"].

(** A string schema has nothing to report on a value. *)
Definition string_value_ok (tests : list Yup.StringTest) (v : option jsstring)
  : bool :=
  match v with
  | Some s => forallb (fun t => Yup.string_test_ok t s) tests
  | None => negb (existsb Yup.is_required tests)
  end.

(** The values on which the validation run by the form reports no error
    at all. *)
Definition schema_valid (v : FormValues) : Prop :=
  (2 <= List.length (username v))%nat /\
  (5 <= List.length (tel v))%nat /\
  Yup.rEmail (email v) = true /\
  In (delivery v) delivery_methods /\
  Forall (fun token => token = [] \/ In token restriction_tokens)
         (restrictions v) /\
  deliveryTime v <> [] /\
  (List.length (message v) <= 200)%nat /\
  (exists x, weight v = VNumber x
             /\ JsNumber.geb x JsNumber.one_tenth = true) /\
  (exists x, pricePerKg v = VNumber x
             /\ JsNumber.geb x JsNumber.one_tenth = true) /\
  category v <> [].

(** The effect has nothing left to do, and the stored price is the one
    derived from the category. *)
Definition settled (st : FormState) : Prop :=
  effect_deps st = Some (category (values st)) /\
  pricePerKg (values st) = derived_price (category (values st)).

(** The submission is withheld: nothing is logged and the values stay. *)
Definition blocked (st st' : FormState) : Prop :=
  console st' = console st /\ values st' = values st.

(** An error of a whole field, with a message of the source. *)
Definition error (f : Field.name) (t : Yup.TestName) (msg : jsstring)
  : Yup.ValidationError :=
  {| Yup.err_field := f; Yup.err_index := None; Yup.err_type := t;
     Yup.err_message := Some msg |}.

Definition is_category_change (ev : Event) : bool :=
  match ev with
  | ChangeCategory _ => true
  | _ => false
  end.

(** *** Sample orders *)

(** Ann's order, with the restrictions, the delivery time and the message
    left open. *)
Definition order (tokens : list jsstring) (time msg : jsstring) : FormValues :=
  {| username := js"Ann"; tel := js"12345"; email := js"a@b.com";
     delivery := js"pickup"; restrictions := tokens;
     deliveryTime := time; message := msg;
     weight := VNumber (JsNumber.of_Z 2);
     pricePerKg := VNumber (JsNumber.of_Z 50); category := js"Temu" |}.

(** An order that passes validation, with a delivery time the select
    element does not offer. *)
Definition midnight_order : FormValues := order [] js"midnight" [].

(** The events that enter Ann's order into a fresh form. *)
Definition ann : list Event :=
  [ChangeUsername js"Ann"; ChangeTel js"12345"; ChangeEmail js"a@b.com";
   ChangeDelivery js"pickup"; ChangeDeliveryTime js"morning";
   ChangeWeight (JsNumber.of_Z 2); ChangeCategory js"Temu"].

(** Five inputs the schema rejects, entered into a fresh form. *)
Definition rejected_inputs : list Event :=
  [ChangeUsername js"A"; ChangeTel js"1234"; ChangeEmail js"not-an-email";
   ChangeWeight JsNumber.zero; ChangeDeliveryTime []].

(** *** Decimal numerals *)

(** The number a string of decimal digits denotes. *)
Definition digit_value (c : N) : option N :=
  if ((48 <=? c) && (c <=? 57))%N then Some (c - 48)%N else None.

Fixpoint decimal_value_from (acc : N) (s : jsstring) : option N :=
  match s with
  | [] => Some acc
  | c :: r =>
      match digit_value c with
      | Some v => decimal_value_from (10 * acc + v) r
      | None => None
      end
  end.

Definition decimal_value (s : jsstring) : option N := decimal_value_from 0 s.

Fixpoint horner (acc : N) (u : Decimal.uint) : N :=
  match u with
  | Decimal.Nil => acc
  | Decimal.D0 u => horner (10 * acc) u
  | Decimal.D1 u => horner (10 * acc + 1) u
  | Decimal.D2 u => horner (10 * acc + 2) u
  | Decimal.D3 u => horner (10 * acc + 3) u
  | Decimal.D4 u => horner (10 * acc + 4) u
  | Decimal.D5 u => horner (10 * acc + 5) u
  | Decimal.D6 u => horner (10 * acc + 6) u
  | Decimal.D7 u => horner (10 * acc + 7) u
  | Decimal.D8 u => horner (10 * acc + 8) u
  | Decimal.D9 u => horner (10 * acc + 9) u
  end%N.

(** *** The total price as the specification words it *)

(** The product of the two values, as real numbers, rounded to 2 decimal
    places. *)
Definition rounded_product (w p : number) : jsstring :=
  JsNumber.fixed_digits 2
    (JsNumber.nearest_scaled 2 (JsNumber.to_Q w * JsNumber.to_Q p)).

(** The double next above 1, and the second double below 0.125:
    1 + 2^-52 and 0.125 - 2^-55. *)
Definition just_above_one : number := S754_finite false 4503599627370497 (-52).
Definition just_below_eighth : number := S754_finite false 9007199254740990 (-56).

(** *** The form beyond the claims *)

(** The rates of the price table, as values of [pricePerKg], and the 0
    the effect stores for the empty category. *)
Definition table_prices : list JsValue :=
  VNumber JsNumber.zero :: map (fun entry => VNumber (snd entry)) categoryPrices.

(** A change of one of the eight inputs. *)
Definition is_change (ev : Event) : bool :=
  match ev with
  | Blur _ | Submit => false
  | _ => true
  end.

Definition is_submit (ev : Event) : bool :=
  match ev with
  | Submit => true
  | _ => false
  end.

(** The value of [weight] is what the number input can produce: a number
    that is not NaN, or the empty string. *)
Definition weight_entered (v : JsValue) : Prop :=
  v = VEmptyString \/ exists x, v = VNumber x /\ JsNumber.is_nan x = false.

(** An entry of the console as [handleSubmit] writes it: the values passed
    validation, their price is the rate of their category, and the total
    is computed from them. *)
Definition well_logged (entry : LogEntry) : Prop :=
  schema_valid (logged entry) /\
  In (category (logged entry)) (keys categoryPrices) /\
  pricePerKg (logged entry) = get categoryPrices (category (logged entry)) /\
  totalPrice entry = calculatePrice (ToNumber (weight (logged entry)))
                                    (ToNumber (pricePerKg (logged entry))).

(** What the user has to get right for a submission to go through: the
    fields that have an input and can hold a value the schema rejects. *)
Definition ready_to_submit (v : FormValues) : Prop :=
  (2 <= List.length (username v))%nat /\
  (5 <= List.length (tel v))%nat /\
  Yup.rEmail (email v) = true /\
  deliveryTime v <> [] /\
  (List.length (message v) <= 200)%nat /\
  (exists x, weight v = VNumber x
             /\ JsNumber.geb x JsNumber.one_tenth = true) /\
  category v <> [].

(** The default wording error of [oneOf]. *)
Definition oneOf_error (f : Field.name) : Yup.ValidationError :=
  {| Yup.err_field := f; Yup.err_index := None; Yup.err_type := Yup.t_oneOf;
     Yup.err_message := None |}.

(** * Properties *)

Arguments Yup.validate : simpl never.
Arguments validateYupSchema : simpl never.
Arguments calculatePrice : simpl never.
Arguments get : simpl never.

(** ** Strings *)

Lemma jsstring_eqb_eq a b : JsString.eqb a b = true <-> a = b.
Proof. unfold JsString.eqb. destruct (JsString.eq_dec a b); split; congruence. Qed.

Lemma jsstring_eqb_refl a : JsString.eqb a a = true.
Proof. now apply jsstring_eqb_eq. Qed.

Lemma jsstring_mem_In s l : JsString.mem s l = true <-> In s l.
Proof.
  unfold JsString.mem. rewrite existsb_exists. split.
  - intros [x [Hin Hx]]. apply jsstring_eqb_eq in Hx. now subst.
  - intros Hin. exists s. split; [assumption | apply jsstring_eqb_refl].
Qed.

Lemma length_zero_iff {A} (l : list A) :
  Nat.eqb (List.length l) 0 = false <-> l <> [].
Proof. destruct l; simpl; split; congruence. Qed.

Lemma app_nil_iff {A} (l1 l2 : list A) :
  l1 ++ l2 = [] <-> l1 = [] /\ l2 = [].
Proof.
  split; [apply app_eq_nil | intros [-> ->]; reflexivity].
Qed.

Lemma filter_all {A} (p : A -> bool) l :
  (forall x, In x l -> p x = true) -> filter p l = l.
Proof.
  induction l as [|a l IH]; simpl; intros H; [reflexivity|].
  rewrite (H a (or_introl eq_refl)). f_equal. apply IH. auto.
Qed.

Lemma filter_none {A} (p : A -> bool) l :
  (forall x, In x l -> p x = false) -> filter p l = [].
Proof.
  induction l as [|a l IH]; simpl; intros H; [reflexivity|].
  rewrite (H a (or_introl eq_refl)). apply IH. auto.
Qed.

(** ** Facts about the validation library *)

Section YupFacts.

Import Yup.

Lemma validate_string_field tests f i v e :
  In e (validate_string tests f i v) -> err_field e = f /\ err_index e = i.
Proof.
  assert (Hmap : forall l, In e (map (string_test_error f i) l) ->
                           err_field e = f /\ err_index e = i).
  { intros l. rewrite in_map_iff. intros [t [<- _]]. destruct t; simpl; auto. }
  unfold validate_string. destruct v as [s|]; [|apply Hmap].
  destruct (failing (filter is_oneOf tests) s); apply Hmap.
Qed.

Lemma validate_elements_field tests f l : forall i e,
  In e (validate_elements tests f i l) -> err_field e = f.
Proof.
  induction l as [|s r IH]; simpl; intros i e Hin; [contradiction|].
  apply in_app_or in Hin. destruct Hin as [Hin | Hin].
  - now apply validate_string_field in Hin.
  - now apply IH in Hin.
Qed.

Lemma number_test_errors_field f v t e :
  In e (number_test_errors f v t) -> err_field e = f.
Proof.
  destruct t, v; simpl; try contradiction.
  - destruct (JsNumber.geb x limit); simpl; [contradiction|].
    now intros [<- | []].
  - now intros [<- | []].
Qed.

Lemma validate_number_field tests f v e :
  In e (validate_number tests f v) -> err_field e = f.
Proof.
  assert (Hflat : In e (flat_map (number_test_errors f v) tests) ->
                  err_field e = f).
  { rewrite in_flat_map. intros [t [_ Hin]].
    now apply number_test_errors_field in Hin. }
  destruct v; simpl; auto; try (now intros [<- | []]).
  destruct (JsNumber.is_nan x); auto. simpl. now intros [<- | []].
Qed.

Lemma validate_value_field sch f x e :
  In e (validate_value sch f x) -> err_field e = f.
Proof.
  destruct sch, x; simpl;
    try (now intros [<- | []]).
  - intros Hin. now apply validate_string_field in Hin.
  - apply validate_number_field.
  - apply validate_elements_field.
Qed.

Lemma errors_at_same sch f x :
  errors_at f (validate_value sch f x) = validate_value sch f x.
Proof.
  apply filter_all. intros e Hin.
  apply validate_value_field in Hin. rewrite Hin.
  unfold Field.eqb. destruct (Field.eq_dec f f); congruence.
Qed.

Lemma errors_at_other sch f g x :
  g <> f -> errors_at f (validate_value sch g x) = [].
Proof.
  intros Hne. apply filter_none. intros e Hin.
  apply validate_value_field in Hin. rewrite Hin.
  unfold Field.eqb. destruct (Field.eq_dec g f); congruence.
Qed.

Lemma errors_at_app f l1 l2 :
  errors_at f (l1 ++ l2) = errors_at f l1 ++ errors_at f l2.
Proof. apply filter_app. Qed.

Lemma errors_at_nil f : errors_at f [] = [].
Proof. reflexivity. Qed.

(** The errors filed under a field are those of that field's schema run
    on that field's value. *)
Lemma errors_at_validate f data :
  errors_at f (validate OrderSchema data) =
  match schema_of f with
  | Some sch => validate_value sch f (data f)
  | None => []
  end.
Proof.
  unfold validate, OrderSchema.
  cbn [flat_map fst snd]. rewrite !errors_at_app.
  destruct f; cbn [schema_of option_map find fst snd Field.eqb OrderSchema];
    repeat first
      [ rewrite errors_at_same
      | rewrite errors_at_other by discriminate
      | rewrite errors_at_nil ];
    cbn [app]; rewrite ?app_nil_r; reflexivity.
Qed.

Lemma failing_nil tests s :
  failing tests s = [] <-> forallb (fun t => string_test_ok t s) tests = true.
Proof.
  unfold failing.
  induction tests as [|t ts IH]; simpl; [tauto|].
  destruct (string_test_ok t s); simpl; [exact IH | split; discriminate].
Qed.

Lemma forallb_filter_split {A} (p q : A -> bool) l :
  forallb p l = forallb p (filter q l)
                && forallb p (filter (fun x => negb (q x)) l).
Proof.
  induction l as [|a l IH]; simpl; [reflexivity|].
  destruct (q a); simpl; rewrite IH; destruct (p a); simpl;
    rewrite ?andb_false_r; reflexivity.
Qed.

Lemma map_nil_iff {A B} (g : A -> B) l : map g l = [] <-> l = [].
Proof. destruct l; simpl; split; congruence. Qed.

Lemma validate_string_nil tests f i v :
  validate_string tests f i v = [] <-> string_value_ok tests v = true.
Proof.
  unfold validate_string, string_value_ok. destruct v as [s|].
  - rewrite (forallb_filter_split _ is_oneOf tests), andb_true_iff,
            <- !failing_nil.
    destruct (failing (filter is_oneOf tests) s) eqn:Hone.
    + rewrite map_nil_iff. tauto.
    + split; [discriminate | intros [H _]; discriminate].
  - rewrite map_nil_iff, negb_true_iff.
    induction tests as [|t ts IH]; simpl; [tauto|].
    destruct (is_required t); simpl; [split; discriminate | exact IH].
Qed.

Lemma validate_elements_nil tests f l : forall i,
  validate_elements tests f i l = [] <->
  Forall (fun v => string_value_ok tests v = true) l.
Proof.
  induction l as [|s r IH]; simpl; intros i.
  - split; auto.
  - rewrite app_nil_iff, validate_string_nil, IH. split.
    + intros [H1 H2]. now constructor.
    + intros H. inversion H; subst. auto.
Qed.

Lemma geb_not_nan x limit :
  JsNumber.geb x limit = true -> JsNumber.is_nan x = false.
Proof.
  destruct x; simpl; auto. unfold JsNumber.geb. destruct limit; discriminate.
Qed.

(** A number field with [min(limit)] and [required]. *)
Lemma validate_min_required_nil limit m1 m2 f v :
  validate_number [n_min limit m1; n_required m2] f v = [] <->
  exists x, v = VNumber x /\ JsNumber.geb x limit = true.
Proof.
  destruct v as [x| | |name]; simpl.
  - destruct (JsNumber.geb x limit) eqn:Hge.
    + rewrite (geb_not_nan _ _ Hge). simpl. split; [|auto].
      intros _. exists x. auto.
    + destruct (JsNumber.is_nan x); simpl;
        (split; [discriminate | intros [y [Hy Hge']]; congruence]).
  - split; [discriminate | intros [y [Hy _]]; discriminate].
  - split; [discriminate | intros [y [Hy _]]; discriminate].
  - split; [discriminate | intros [y [Hy _]]; discriminate].
Qed.

End YupFacts.

(** ** What the form's validation accepts *)

(** The errors the form files under a field. *)
Lemma errors_at_form f v :
  Yup.errors_at f (validateYupSchema v) =
  match schema_of f with
  | Some sch => Yup.validate_value sch f (prepareDataForValidation v f)
  | None => []
  end.
Proof. unfold validateYupSchema. apply errors_at_validate. Qed.

Lemma rEmail_nonempty s : Yup.rEmail s = true -> s <> [].
Proof. intros H ->. discriminate. Qed.

Lemma string_value_ok_blank tests s :
  string_value_ok tests (blank_string s) = true <->
  (s = [] /\ existsb Yup.is_required tests = false) \/
  (s <> [] /\ forallb (fun t => Yup.string_test_ok t s) tests = true).
Proof.
  destruct s as [|c r]; simpl.
  - rewrite negb_true_iff. split; [auto | intros [[_ H] | [H _]]; congruence].
  - split; [intros H; right; split; [discriminate | exact H]
           | intros [[H _] | [_ H]]; [discriminate | exact H]].
Qed.

(** A required string field: the value must be present and pass every
    test. *)
Lemma required_string_ok tests msg s :
  string_value_ok (tests ++ [Yup.s_required msg]) (blank_string s) = true <->
  s <> [] /\ forallb (fun t => Yup.string_test_ok t s) tests = true.
Proof.
  rewrite string_value_ok_blank, forallb_app, existsb_app. simpl.
  rewrite orb_true_r, andb_true_r, andb_true_iff, negb_true_iff, length_zero_iff.
  split.
  - intros [[_ H] | [Hne [H _]]]; [discriminate | auto].
  - intros [Hne H]. right. auto.
Qed.

Lemma validate_nil_iff v :
  validateYupSchema v = [] <-> schema_valid v.
Proof.
  unfold validateYupSchema, Yup.validate, OrderSchema, schema_valid.
  cbn [flat_map fst snd prepareDataForValidation Yup.validate_value].
  rewrite app_nil_r, !app_nil_iff.
  rewrite !validate_string_nil, validate_elements_nil,
          !validate_min_required_nil.
  change [Yup.s_min 2 js"Too Short!"; Yup.s_required js"Required"]
    with ([Yup.s_min 2 js"Too Short!"] ++ [Yup.s_required js"Required"]).
  change [Yup.s_min 5 js"Too Short!"; Yup.s_required js"Required"]
    with ([Yup.s_min 5 js"Too Short!"] ++ [Yup.s_required js"Required"]).
  change [Yup.s_email js"Invalid email"; Yup.s_required js"Required"]
    with ([Yup.s_email js"Invalid email"] ++ [Yup.s_required js"Required"]).
  change [Yup.s_oneOf [js"pickup"; js"courier"; js"drone"];
          Yup.s_required js"Required"]
    with ([Yup.s_oneOf delivery_methods] ++ [Yup.s_required js"Required"]).
  change [Yup.s_required js"Required"]
    with ([] ++ [Yup.s_required js"Required"]) at 5.
  change [Yup.s_required js"Required"]
    with ([] ++ [Yup.s_required js"Required"]) at 6.
  rewrite !required_string_ok.
  cbn [forallb Yup.string_test_ok].
  assert (Hmin : forall n (s : jsstring),
    (s <> [] /\ Nat.leb (S n) (List.length s) && true = true)
    <-> (S n <= List.length s)%nat).
  { intros n s. rewrite andb_true_r, Nat.leb_le. split; [tauto|].
    intros H. split; [|exact H]. intros ->. simpl in H. lia. }
  rewrite (Hmin 1%nat), (Hmin 4%nat).
  assert (Hemail : (email v <> []
                    /\ (Nat.eqb (List.length (email v)) 0 || Yup.rEmail (email v))
                       && true = true)
                   <-> Yup.rEmail (email v) = true).
  { rewrite andb_true_r, orb_true_iff. split.
    - intros [Hne [H | H]]; [|exact H].
      apply Nat.eqb_eq in H. destruct (email v); [congruence | discriminate].
    - intros H. split; [now apply rEmail_nonempty | now right]. }
  rewrite Hemail.
  assert (Hdelivery : (delivery v <> []
                       /\ JsString.mem (delivery v) delivery_methods && true = true)
                      <-> In (delivery v) delivery_methods).
  { rewrite andb_true_r, jsstring_mem_In. split; [tauto|].
    intros H. split; [|exact H]. intros Heq. rewrite Heq in H.
    destruct H as [H | [H | [H | []]]]; discriminate. }
  rewrite Hdelivery.
  assert (Htokens : Forall (fun t => string_value_ok
                              [Yup.s_oneOf [js"vegan"; js"gluten-free"; js"nut-free"]] t
                            = true) (map blank_string (restrictions v))
                    <-> Forall (fun token => token = [] \/ In token restriction_tokens)
                               (restrictions v)).
  { rewrite Forall_map, !Forall_forall.
    assert (Htoken : forall token,
      string_value_ok [Yup.s_oneOf [js"vegan"; js"gluten-free"; js"nut-free"]]
        (blank_string token) = true
      <-> token = [] \/ In token restriction_tokens);
      [|split; intros H token Hin; apply Htoken, H, Hin].
    intros token. rewrite string_value_ok_blank. cbn [existsb forallb Yup.is_required
                                       Yup.string_test_ok].
    rewrite andb_true_r, jsstring_mem_In. split.
    - intros [[H _] | [_ H]]; auto.
    - intros [H | H]; [left; auto|].
      right. split; [|exact H]. intros Heq. rewrite Heq in H.
      destruct H as [H | [H | [H | []]]]; discriminate. }
  rewrite Htokens.
  assert (Hmessage : string_value_ok [Yup.s_max 200 js"Too long!"]
                       (blank_string (message v)) = true
                     <-> (List.length (message v) <= 200)%nat).
  { rewrite string_value_ok_blank. cbn [existsb forallb Yup.is_required
                                       Yup.string_test_ok].
    rewrite andb_true_r, Nat.leb_le. split.
    - intros [[-> _] | [_ H]]; [simpl; lia | exact H].
    - intros H. destruct (message v) as [|c r] eqn:Hm; [left; auto|].
      right. split; [discriminate | exact H]. }
  rewrite Hmessage.
  assert (Hnumber : forall w, (exists x, blank_value w = VNumber x
                              /\ JsNumber.geb x JsNumber.one_tenth = true)
                    <-> (exists x, w = VNumber x
                         /\ JsNumber.geb x JsNumber.one_tenth = true)).
  { intros w. destruct w; simpl; try tauto.
    split; intros [x [Hx _]]; discriminate. }
  rewrite !Hnumber. tauto.
Qed.

(** ** The price effect keeps [pricePerKg] derived from [category] *)

Lemma handle_deps ev st : effect_deps (handle ev st) = effect_deps st.
Proof.
  destruct ev; try reflexivity.
  simpl. unfold submitForm.
  destruct (validateYupSchema (values st)); reflexivity.
Qed.

(** No event writes [pricePerKg], except that a successful submission
    resets all the values. *)
Lemma handle_price ev st :
  values (handle ev st) = initialFormValues \/
  pricePerKg (values (handle ev st)) = pricePerKg (values st).
Proof.
  destruct ev; try (right; reflexivity).
  simpl. unfold submitForm.
  destruct (validateYupSchema (values st)); [left | right]; reflexivity.
Qed.

Lemma effect_category st :
  category (values (PriceCalculator_effect st)) = category (values st).
Proof.
  unfold PriceCalculator_effect.
  destruct (deps_changed (effect_deps st) (category (values st))); reflexivity.
Qed.

Lemma deps_unchanged deps c : deps_changed deps c = false <-> deps = Some c.
Proof.
  destruct deps as [c'|]; simpl.
  - rewrite negb_false_iff, jsstring_eqb_eq. split; congruence.
  - split; discriminate.
Qed.

Lemma effect_settles st :
  (effect_deps st = Some (category (values st)) ->
   pricePerKg (values st) = derived_price (category (values st))) ->
  settled (PriceCalculator_effect st).
Proof.
  intros Hkeep. unfold PriceCalculator_effect.
  destruct (deps_changed (effect_deps st) (category (values st))) eqn:Hch.
  - split; reflexivity.
  - apply deps_unchanged in Hch. split; auto.
Qed.

Lemma effect_idle st : settled st -> PriceCalculator_effect st = st.
Proof.
  intros [Hdeps _]. unfold PriceCalculator_effect.
  apply deps_unchanged in Hdeps. now rewrite Hdeps.
Qed.

(** The effect settles the form after every event. *)
Lemma dispatch_settled ev st : settled st -> settled (dispatch ev st).
Proof.
  intros [IHdeps IHprice]. unfold dispatch. apply effect_settles.
  rewrite handle_deps, IHdeps. intros Hsame.
  injection Hsame as Hsame.
  destruct (handle_price ev st) as [Hreset | Hkept].
  - now rewrite Hreset.
  - now rewrite Hkept, IHprice, Hsame.
Qed.

Lemma mounted_settled : settled mounted.
Proof. apply effect_settles. discriminate. Qed.

Lemma reachable_settled st : reachable st -> settled st.
Proof.
  induction 1 as [|ev st Hev Hr IH];
    [apply mounted_settled | now apply dispatch_settled].
Qed.

Lemma reachable_run_from evs : forall st,
  reachable st ->
  forallb deliverable evs = true ->
  reachable (run_from st evs).
Proof.
  unfold run_from.
  induction evs as [|ev evs IH]; simpl; intros st Hr Hevs; [assumption|].
  apply andb_true_iff in Hevs. destruct Hevs as [Hev Hevs].
  apply IH; [now constructor | assumption].
Qed.

Lemma reachable_run evs :
  forallb deliverable evs = true -> reachable (run evs).
Proof. apply reachable_run_from. constructor. Qed.

Lemma reachable_ann : reachable (run ann).
Proof. apply reachable_run. reflexivity. Qed.

Lemma reachable_rejected_inputs : reachable (run rejected_inputs).
Proof. apply reachable_run. reflexivity. Qed.

(** The category is always one of the options of its select element, so
    the price the effect stores is always a number. *)
Lemma reachable_category st :
  reachable st -> In (category (values st)) category_options.
Proof.
  induction 1 as [|ev st Hev Hr IH]; [left; reflexivity|].
  unfold dispatch. rewrite effect_category.
  destruct ev; try exact IH.
  - apply jsstring_mem_In. exact Hev.
  - simpl. unfold submitForm.
    destruct (validateYupSchema (values st)); [left; reflexivity | exact IH].
Qed.

Lemma reachable_price_number st :
  reachable st -> exists x, pricePerKg (values st) = VNumber x.
Proof.
  intros Hr. destruct (reachable_settled st Hr) as [_ Hprice].
  rewrite Hprice.
  destruct (reachable_category st Hr) as [<- | [<- | [<- | [<- | [<- | []]]]]];
    eexists; reflexivity.
Qed.

(** Nothing in the form writes [restrictions]. *)
Lemma reachable_restrictions st : reachable st -> restrictions (values st) = [].
Proof.
  assert (Heff : forall s, restrictions (values (PriceCalculator_effect s))
                           = restrictions (values s)).
  { intros s. unfold PriceCalculator_effect.
    destruct (deps_changed _ _); reflexivity. }
  induction 1 as [|ev st Hev Hr IH]; [reflexivity|].
  unfold dispatch. rewrite Heff.
  destruct ev; try exact IH.
  simpl. unfold submitForm.
  destruct (validateYupSchema (values st)); [reflexivity | exact IH].
Qed.

(** After a change of category and the effect, the category is the one
    chosen and the errors are those of the current values. *)
Lemma dispatch_change_category c st :
  let st' := dispatch (ChangeCategory c) st in
  category (values st') = c /\
  errors st' = validateYupSchema (values st').
Proof.
  unfold dispatch, PriceCalculator_effect. simpl.
  destruct (deps_changed (effect_deps st) c); simpl; auto.
Qed.

(** A submission that validation rejects: nothing is logged, the values
    stay, every field is touched and the errors are recorded. *)
Lemma dispatch_submit_blocked st :
  settled st ->
  validateYupSchema (values st) <> [] ->
  dispatch Submit st =
  {| values := values st; errors := validateYupSchema (values st);
     touched := Field.all; effect_deps := effect_deps st;
     console := console st |}.
Proof.
  intros Hr Hbad.
  unfold dispatch. simpl. unfold submitForm.
  destruct (validateYupSchema (values st)) eqn:He; [congruence|].
  apply effect_idle. exact Hr.
Qed.

(** A submission that validation accepts: one entry is logged and the
    values are the seed defaults again. *)
Lemma dispatch_submit_accepted st :
  validateYupSchema (values st) = [] ->
  console (dispatch Submit st) =
    console st ++ [ {| logged := values st;
                       totalPrice := calculatePrice
                                       (ToNumber (weight (values st)))
                                       (ToNumber (pricePerKg (values st))) |} ] /\
  values (dispatch Submit st) = initialFormValues.
Proof.
  intros Hok. unfold dispatch. simpl. unfold submitForm. rewrite Hok.
  unfold PriceCalculator_effect, handleSubmit, resetForm. simpl.
  destruct (deps_changed (effect_deps st) []); simpl; auto.
Qed.

Lemma ErrorMessage_touched_all f st errs :
  touched st = Field.all -> errors st = errs ->
  ErrorMessage f st = hd_error (Yup.errors_at f errs).
Proof.
  intros Ht He. unfold ErrorMessage. rewrite Ht, He.
  destruct f; reflexivity.
Qed.

(** ** The claims *)

(** C1.  In every state the form can reach (the effect of PriceCalculator
    has run after each event), [pricePerKg] is the lookup
    [categoryPrices[category]] when the category is not empty, and the
    number 0 when it is empty, whatever fields were edited on the way. *)
Theorem pricePerKg_follows_category st :
  reachable st ->
  (category (values st) <> [] ->
   pricePerKg (values st) = get categoryPrices (category (values st))) /\
  (category (values st) = [] ->
   pricePerKg (values st) = VNumber JsNumber.zero).
Proof.
  intros Hr. destruct (reachable_settled st Hr) as [_ Hprice].
  rewrite Hprice. unfold derived_price.
  destruct (category (values st)); simpl; split; congruence.
Qed.

Lemma pricePerKg_follows_category_witness :
  reachable (run ann) /\
  category (values (run ann)) <> [] /\
  pricePerKg (values (run ann))
    = get categoryPrices (category (values (run ann))) /\
  reachable mounted /\
  category (values mounted) = [] /\
  pricePerKg (values mounted) = VNumber JsNumber.zero.
Proof.
  assert (Hann : category (values (run ann)) <> []).
  { vm_compute. discriminate. }
  assert (Hseed : category (values mounted) = []).
  { vm_compute. reflexivity. }
  split; [exact reachable_ann|]. split; [exact Hann|]. split.
  - exact (proj1 (pricePerKg_follows_category (run ann) reachable_ann) Hann).
  - split; [constructor|]. split; [exact Hseed|].
    exact (proj2 (pricePerKg_follows_category mounted reachable_mounted) Hseed).
Defined.

(** After a change of category (whatever the new value) and the effect,
    the price is the one derived from the new category. *)
Lemma category_change_price c st :
  settled st ->
  pricePerKg (values (dispatch (ChangeCategory c) st)) = derived_price c.
Proof.
  intros Hs.
  destruct (dispatch_settled (ChangeCategory c) st Hs) as [_ Hprice].
  rewrite Hprice. now rewrite (proj1 (dispatch_change_category c st)).
Qed.

(** C3.  Selecting a category sets the rate: "Amazon cat A" gives 20,
    "Aliexpress" 35, "Temu" 50, and clearing the category gives 0. *)
Theorem category_sets_rate st :
  reachable st ->
  pricePerKg (values (dispatch (ChangeCategory js"Amazon cat A") st))
    = VNumber (JsNumber.of_Z 20) /\
  pricePerKg (values (dispatch (ChangeCategory js"Aliexpress") st))
    = VNumber (JsNumber.of_Z 35) /\
  pricePerKg (values (dispatch (ChangeCategory js"Temu") st))
    = VNumber (JsNumber.of_Z 50) /\
  pricePerKg (values (dispatch (ChangeCategory []) st))
    = VNumber JsNumber.zero.
Proof.
  intros Hr. apply reachable_settled in Hr.
  rewrite !category_change_price by exact Hr. repeat split.
Qed.

Lemma category_sets_rate_witness :
  reachable (run ann) /\
  pricePerKg (values (dispatch (ChangeCategory js"Amazon cat A") (run ann)))
    = VNumber (JsNumber.of_Z 20) /\
  pricePerKg (values (dispatch (ChangeCategory js"Aliexpress") (run ann)))
    = VNumber (JsNumber.of_Z 35) /\
  pricePerKg (values (dispatch (ChangeCategory js"Temu") (run ann)))
    = VNumber (JsNumber.of_Z 50) /\
  pricePerKg (values (dispatch (ChangeCategory []) (run ann)))
    = VNumber JsNumber.zero.
Proof.
  split; [exact reachable_ann|].
  exact (category_sets_rate (run ann) reachable_ann).
Defined.

Lemma own_property_absent o key :
  ~ In key (keys o) -> own_property o key = None.
Proof.
  induction o as [|[k v] o IH]; simpl; intros Hnot; [reflexivity|].
  destruct (JsString.eqb key k) eqn:Heq.
  - apply jsstring_eqb_eq in Heq. subst. tauto.
  - apply IH. tauto.
Qed.

(** C9, as the code has it.  When the category is set to a non-empty
    string that is not a key of the price table (no element of the form
    offers one), the effect takes the unguarded lookup
    [categoryPrices[category]], which is never a number, so never 0, and
    the category itself raises no validation error.  The lookup is
    [undefined], and [undefined] is what [pricePerKg] then holds, unless
    the string names a member every object inherits from
    [Object.prototype]: then the lookup is that member. *)
Theorem unknown_category_stores_lookup st c :
  reachable st ->
  c <> [] ->
  ~ In c (keys categoryPrices) ->
  let st' := dispatch (ChangeCategory c) st in
  derived_price c = get categoryPrices c /\
  (forall x, get categoryPrices c <> VNumber x) /\
  (~ In c object_prototype_keys ->
   get categoryPrices c = VUndefined /\ pricePerKg (values st') = VUndefined) /\
  (In c object_prototype_keys -> get categoryPrices c = VObjectPrototype c) /\
  Yup.errors_at Field.category (errors st') = [].
Proof.
  intros Hr Hne Hnot st'.
  destruct (dispatch_change_category c st) as [Hcat Herrs].
  fold st' in Hcat, Herrs.
  assert (Hderived : derived_price c = get categoryPrices c).
  { unfold derived_price. destruct c; [congruence | reflexivity]. }
  assert (Hprice : pricePerKg (values st') = get categoryPrices c).
  { unfold st'. rewrite category_change_price by now apply reachable_settled.
    exact Hderived. }
  assert (Herr : Yup.errors_at Field.category (errors st') = []).
  { rewrite Herrs, errors_at_form. simpl. rewrite Hcat.
    destruct c; [congruence | reflexivity]. }
  assert (Hget : get categoryPrices c =
                 if JsString.mem c object_prototype_keys
                 then VObjectPrototype c else VUndefined).
  { unfold get. now rewrite (own_property_absent _ _ Hnot). }
  split; [exact Hderived|]. rewrite Hprice, Hget.
  destruct (JsString.mem c object_prototype_keys) eqn:Hmem.
  - apply jsstring_mem_In in Hmem.
    split; [discriminate|]. split; [tauto|]. split; [reflexivity | exact Herr].
  - assert (Hout : ~ In c object_prototype_keys).
    { intros Hin. apply jsstring_mem_In in Hin. congruence. }
    split; [discriminate|]. split; [auto|]. split; [tauto | exact Herr].
Qed.

Lemma unknown_category_stores_lookup_witness :
  reachable mounted /\
  js"Wish" <> [] /\
  ~ In js"Wish" (keys categoryPrices) /\
  ~ In js"Wish" object_prototype_keys /\
  pricePerKg (values (dispatch (ChangeCategory js"Wish") mounted)) = VUndefined.
Proof.
  assert (Hne : js"Wish" <> []) by discriminate.
  assert (Hkey : ~ In js"Wish" (keys categoryPrices)).
  { vm_compute. intuition discriminate. }
  assert (Hproto : ~ In js"Wish" object_prototype_keys).
  { vm_compute. intuition discriminate. }
  split; [constructor|]. split; [exact Hne|]. split; [exact Hkey|].
  split; [exact Hproto|].
  exact (proj2 (proj1 (proj2 (proj2
    (unknown_category_stores_lookup mounted js"Wish" reachable_mounted Hne Hkey)))
    Hproto)).
Defined.

(** C9, as stated, fails: "__proto__" and "toString" are not empty and
    are not keys of the table, yet the lookup finds what the table
    inherits from [Object.prototype], not [undefined]; for "__proto__"
    that is the prototype object, and the effect stores it. *)
Lemma unknown_category_not_always_undefined :
  reachable mounted /\
  js"__proto__" <> [] /\
  ~ In js"__proto__" (keys categoryPrices) /\
  pricePerKg (values (dispatch (ChangeCategory js"__proto__") mounted))
    <> VUndefined /\
  ~ In js"toString" (keys categoryPrices) /\
  get categoryPrices js"toString" <> VUndefined.
Proof.
  split; [constructor|]. split; [discriminate|]. split; [|split; [|split]].
  - vm_compute. intuition discriminate.
  - vm_compute. discriminate.
  - vm_compute. intuition discriminate.
  - vm_compute. discriminate.
Qed.

(** C4.  A form holding username "Ann", tel "12345", email "a@b.com",
    delivery "pickup", deliveryTime "morning", weight 2 and category
    "Temu" (with a message within the limit) has pricePerKg 50; submitting
    it logs the values with totalPrice "100.00" added and leaves every
    field at its seed default. *)
Theorem submit_valid_order st :
  reachable st ->
  username (values st) = js"Ann" ->
  tel (values st) = js"12345" ->
  email (values st) = js"a@b.com" ->
  delivery (values st) = js"pickup" ->
  deliveryTime (values st) = js"morning" ->
  weight (values st) = VNumber (JsNumber.of_Z 2) ->
  category (values st) = js"Temu" ->
  (List.length (message (values st)) <= 200)%nat ->
  pricePerKg (values st) = VNumber (JsNumber.of_Z 50) /\
  console (dispatch Submit st) =
    console st ++ [ {| logged := values st; totalPrice := js"100.00" |} ] /\
  values (dispatch Submit st) = initialFormValues.
Proof.
  intros Hr Hu Ht He Hd Hdt Hw Hc Hm.
  assert (Hp : pricePerKg (values st) = VNumber (JsNumber.of_Z 50)).
  { destruct (reachable_settled st Hr) as [_ Hprice].
    rewrite Hprice, Hc. reflexivity. }
  split; [exact Hp|].
  assert (Hok : validateYupSchema (values st) = []).
  { apply validate_nil_iff. unfold schema_valid.
    rewrite Hu, Ht, He, Hd, Hdt, Hw, Hc, Hp, (reachable_restrictions st Hr).
    split; [vm_compute; lia|]. split; [vm_compute; lia|].
    split; [vm_compute; reflexivity|]. split; [left; reflexivity|].
    split; [constructor|]. split; [discriminate|]. split; [exact Hm|].
    split; [exists (JsNumber.of_Z 2); split; reflexivity|].
    split; [|discriminate].
    exists (JsNumber.of_Z 50). split; reflexivity. }
  destruct (dispatch_submit_accepted st Hok) as [Hlog Hreset].
  rewrite Hlog, Hreset, Hw, Hp. split; [|reflexivity].
  assert (Htotal : calculatePrice (ToNumber (VNumber (JsNumber.of_Z 2)))
                     (ToNumber (VNumber (JsNumber.of_Z 50))) = js"100.00").
  { vm_compute. reflexivity. }
  now rewrite Htotal.
Qed.

Lemma submit_valid_order_witness :
  reachable (run ann) /\
  values (run ann) =
    {| username := js"Ann"; tel := js"12345"; email := js"a@b.com";
       delivery := js"pickup"; restrictions := [];
       deliveryTime := js"morning"; message := [];
       weight := VNumber (JsNumber.of_Z 2);
       pricePerKg := VNumber (JsNumber.of_Z 50); category := js"Temu" |} /\
  console (dispatch Submit (run ann)) =
    console (run ann)
    ++ [ {| logged := values (run ann); totalPrice := js"100.00" |} ] /\
  values (dispatch Submit (run ann)) = initialFormValues.
Proof.
  assert (Hv : values (run ann) =
    {| username := js"Ann"; tel := js"12345"; email := js"a@b.com";
       delivery := js"pickup"; restrictions := [];
       deliveryTime := js"morning"; message := [];
       weight := VNumber (JsNumber.of_Z 2);
       pricePerKg := VNumber (JsNumber.of_Z 50); category := js"Temu" |}).
  { vm_compute. reflexivity. }
  split; [exact reachable_ann|]. split; [exact Hv|].
  apply (submit_valid_order (run ann) reachable_ann);
    rewrite Hv; simpl; solve [reflexivity | lia].
Defined.

(** ** Rejected submissions *)

(** A field whose schema reports errors blocks the submission, and its
    slot shows the first of them. *)
Lemma field_error_blocks f e rest st :
  reachable st ->
  Yup.errors_at f (validateYupSchema (values st)) = e :: rest ->
  blocked st (dispatch Submit st) /\
  ErrorMessage f (dispatch Submit st) = Some e.
Proof.
  intros Hr Herr.
  assert (Hbad : validateYupSchema (values st) <> []).
  { intros Hnil. rewrite Hnil in Herr. discriminate. }
  rewrite (dispatch_submit_blocked st (reachable_settled st Hr) Hbad).
  split; [split; reflexivity|].
  rewrite (ErrorMessage_touched_all f _ (validateYupSchema (values st)))
    by reflexivity.
  now rewrite Herr.
Qed.

(** C5.  Submitting is blocked, and the field shows its error, when the
    username has length 1 ("Too Short!"), the tel has length 4
    ("Too Short!"), the email is "not-an-email" ("Invalid email"), the
    weight is 0 ("Min 0.1kg"), or the deliveryTime is empty
    ("Required"). *)
Theorem invalid_fields_block_submission st :
  reachable st ->
  let st' := dispatch Submit st in
  (List.length (username (values st)) = 1%nat ->
   blocked st st' /\
   ErrorMessage Field.username st'
     = Some (error Field.username Yup.t_min js"Too Short!")) /\
  (List.length (tel (values st)) = 4%nat ->
   blocked st st' /\
   ErrorMessage Field.tel st'
     = Some (error Field.tel Yup.t_min js"Too Short!")) /\
  (email (values st) = js"not-an-email" ->
   blocked st st' /\
   ErrorMessage Field.email st'
     = Some (error Field.email Yup.t_email js"Invalid email")) /\
  (weight (values st) = VNumber JsNumber.zero ->
   blocked st st' /\
   ErrorMessage Field.weight st'
     = Some (error Field.weight Yup.t_min js"Min 0.1kg")) /\
  (deliveryTime (values st) = [] ->
   blocked st st' /\
   ErrorMessage Field.deliveryTime st'
     = Some (error Field.deliveryTime Yup.t_required js"Required")).
Proof.
  intros Hr st'. subst st'.
  assert (Hfield : forall f e,
    Yup.errors_at f (validateYupSchema (values st)) = [e] ->
    blocked st (dispatch Submit st) /\
    ErrorMessage f (dispatch Submit st) = Some e).
  { intros f e. apply field_error_blocks, Hr. }
  split; [|split; [|split; [|split]]]; intros H; apply Hfield;
    rewrite errors_at_form; simpl.
  - destruct (username (values st)) as [|c [|c' r]]; try discriminate.
    reflexivity.
  - destruct (tel (values st)) as [|a [|b [|c [|d [|e r]]]]];
      try discriminate. reflexivity.
  - rewrite H. reflexivity.
  - rewrite H. reflexivity.
  - rewrite H. reflexivity.
Qed.

Lemma invalid_fields_block_submission_witness :
  reachable (run rejected_inputs) /\
  List.length (username (values (run rejected_inputs))) = 1%nat /\
  blocked (run rejected_inputs) (dispatch Submit (run rejected_inputs)) /\
  ErrorMessage Field.username (dispatch Submit (run rejected_inputs))
    = Some (error Field.username Yup.t_min js"Too Short!") /\
  ErrorMessage Field.tel (dispatch Submit (run rejected_inputs))
    = Some (error Field.tel Yup.t_min js"Too Short!") /\
  ErrorMessage Field.email (dispatch Submit (run rejected_inputs))
    = Some (error Field.email Yup.t_email js"Invalid email") /\
  ErrorMessage Field.weight (dispatch Submit (run rejected_inputs))
    = Some (error Field.weight Yup.t_min js"Min 0.1kg") /\
  ErrorMessage Field.deliveryTime (dispatch Submit (run rejected_inputs))
    = Some (error Field.deliveryTime Yup.t_required js"Required").
Proof.
  pose proof (invalid_fields_block_submission (run rejected_inputs)
                reachable_rejected_inputs) as (Hu & Ht & He & Hw & Hd).
  assert (Hv : values (run rejected_inputs) =
    {| username := js"A"; tel := js"1234"; email := js"not-an-email";
       delivery := js"pickup"; restrictions := [];
       deliveryTime := []; message := [];
       weight := VNumber JsNumber.zero;
       pricePerKg := VNumber JsNumber.zero; category := [] |}).
  { vm_compute. reflexivity. }
  rewrite Hv in Hu, Ht, He, Hw, Hd.
  split; [exact reachable_rejected_inputs|].
  split; [rewrite Hv; reflexivity|].
  split; [exact (proj1 (Hu eq_refl))|].
  split; [exact (proj2 (Hu eq_refl))|].
  split; [exact (proj2 (Ht eq_refl))|].
  split; [exact (proj2 (He eq_refl))|].
  split; [exact (proj2 (Hw eq_refl))|].
  exact (proj2 (Hd eq_refl)).
Defined.

(** ** Single fields of the schema *)

(** C6, as stated, fails: "midnight" is not empty and is none
    of morning, afternoon, evening, yet the schema reports no error at
    all, whether it is run on the values as they are or as the form runs
    it. *)
Lemma deliveryTime_not_enumerated :
  deliveryTime midnight_order <> [] /\
  ~ In (deliveryTime midnight_order) delivery_times /\
  Yup.validate OrderSchema (as_given midnight_order) = [] /\
  validateYupSchema midnight_order = [].
Proof.
  split; [discriminate|]. split; [|split].
  - vm_compute. intuition discriminate.
  - vm_compute. reflexivity.
  - vm_compute. reflexivity.
Qed.

(** C6, as the code has it.  The schema of deliveryTime has the single
    test [required]: an empty value fails with "Required", every other
    string passes, and no error of the field is ever an enumeration
    ([oneOf]) error.  Only the select element limits the choice to
    morning, afternoon and evening. *)
Theorem deliveryTime_only_required v :
  schema_of Field.deliveryTime
    = Some (Yup.string_ [Yup.s_required js"Required"]) /\
  (deliveryTime v = [] ->
   Yup.errors_at Field.deliveryTime (validateYupSchema v)
     = [error Field.deliveryTime Yup.t_required js"Required"]) /\
  (deliveryTime v <> [] ->
   Yup.errors_at Field.deliveryTime (validateYupSchema v) = []) /\
  (forall e, In e (Yup.errors_at Field.deliveryTime (validateYupSchema v)) ->
             Yup.err_type e <> Yup.t_oneOf).
Proof.
  split; [reflexivity|].
  rewrite errors_at_form. simpl.
  destruct (deliveryTime v) as [|c r]; simpl.
  - split; [reflexivity|]. split; [congruence|].
    intros e [<- | []]. discriminate.
  - split; [discriminate|]. split; [reflexivity|]. intros e [].
Qed.

Lemma deliveryTime_only_required_witness :
  deliveryTime midnight_order <> [] /\
  Yup.errors_at Field.deliveryTime (validateYupSchema midnight_order) = [].
Proof.
  assert (Hne : deliveryTime midnight_order <> []) by discriminate.
  split; [exact Hne|].
  exact (proj1 (proj2 (proj2 (deliveryTime_only_required midnight_order))) Hne).
Defined.

Lemma oneOf_value_ok allowed l :
  Forall (fun v => string_value_ok [Yup.s_oneOf allowed] v = true) (map Some l)
  <-> Forall (fun token => In token allowed) l.
Proof.
  rewrite Forall_map, !Forall_forall.
  split; intros H s Hs; specialize (H s Hs);
    cbn [string_value_ok forallb Yup.string_test_ok] in *.
  - rewrite andb_true_r in H. now apply jsstring_mem_In in H.
  - rewrite andb_true_r. now apply jsstring_mem_In.
Qed.

Lemma oneOf_errors_type allowed f l : forall i e,
  In e (Yup.validate_elements [Yup.s_oneOf allowed] f i l) ->
  Yup.err_type e = Yup.t_oneOf.
Proof.
  induction l as [|v r IH]; simpl; intros i e He; [contradiction|].
  apply in_app_or in He. destruct He as [He | He]; [|now apply IH in He].
  destruct v as [s|]; simpl in He; [|contradiction].
  destruct (JsString.mem s allowed); simpl in He; [contradiction|].
  destruct He as [<- | []]. reflexivity.
Qed.

(** C7.  Run on the values, the schema accepts the restrictions field
    exactly when every token is one of vegan, gluten-free, nut-free; the
    empty list is accepted, and a token outside the set raises an
    enumeration error. *)
Theorem restrictions_subset_accepted v :
  (Forall (fun token => In token restriction_tokens) (restrictions v) <->
   Yup.errors_at Field.restrictions (Yup.validate OrderSchema (as_given v)) = []) /\
  (restrictions v = [] ->
   Yup.errors_at Field.restrictions (Yup.validate OrderSchema (as_given v)) = []) /\
  (forall token, In token (restrictions v) ->
     ~ In token restriction_tokens ->
     exists e, In e (Yup.validate OrderSchema (as_given v)) /\
               Yup.err_field e = Field.restrictions /\
               Yup.err_type e = Yup.t_oneOf).
Proof.
  assert (Hat : Yup.errors_at Field.restrictions
                  (Yup.validate OrderSchema (as_given v))
                = Yup.validate_elements [Yup.s_oneOf restriction_tokens]
                    Field.restrictions 0 (map Some (restrictions v))).
  { rewrite errors_at_validate. reflexivity. }
  rewrite Hat.
  assert (Hiff : Forall (fun token => In token restriction_tokens) (restrictions v) <->
    Yup.validate_elements [Yup.s_oneOf restriction_tokens]
      Field.restrictions 0 (map Some (restrictions v)) = []).
  { now rewrite validate_elements_nil, oneOf_value_ok. }
  split; [exact Hiff|]. split.
  - intros Hnil. rewrite Hnil. reflexivity.
  - intros token Hin Hout.
    assert (Hne : Yup.validate_elements [Yup.s_oneOf restriction_tokens]
                    Field.restrictions 0 (map Some (restrictions v)) <> []).
    { intros Hnil. apply Hiff in Hnil. rewrite Forall_forall in Hnil.
      apply Hout, Hnil, Hin. }
    clear Hiff.
    destruct (Yup.validate_elements [Yup.s_oneOf restriction_tokens]
                Field.restrictions 0 (map Some (restrictions v)))
      as [|e rest] eqn:Herrs; [congruence|].
    assert (Hin' : In e (Yup.errors_at Field.restrictions
                           (Yup.validate OrderSchema (as_given v)))).
    { rewrite Hat. now left. }
    unfold Yup.errors_at in Hin'. apply filter_In in Hin'.
    exists e. split; [exact (proj1 Hin')|].
    assert (He : In e (e :: rest)) by now left.
    rewrite <- Herrs in He.
    split; [now apply validate_elements_field in He
           | now apply oneOf_errors_type in He].
Qed.

Lemma restrictions_subset_accepted_witness :
  Yup.errors_at Field.restrictions
    (Yup.validate OrderSchema
       (as_given (order [js"vegan"; js"nut-free"] js"morning" []))) = [] /\
  Yup.errors_at Field.restrictions
    (Yup.validate OrderSchema (as_given (order [] js"morning" []))) = [] /\
  exists e, In e (Yup.validate OrderSchema
                    (as_given (order [js"vegan"; js"halal"] js"morning" []))) /\
            Yup.err_field e = Field.restrictions /\
            Yup.err_type e = Yup.t_oneOf.
Proof.
  split; [|split].
  - apply (proj1 (restrictions_subset_accepted _)).
    repeat constructor; vm_compute; tauto.
  - apply (proj1 (proj2 (restrictions_subset_accepted _))). reflexivity.
  - apply (proj2 (proj2 (restrictions_subset_accepted _)) js"halal").
    + simpl. tauto.
    + vm_compute. intuition discriminate.
Defined.

(** As the form runs the schema, an empty string inside the array has
    become [undefined], which [oneOf] lets pass: the field is accepted
    exactly when every token that is not empty is one of the three. *)
Lemma restrictions_in_the_form v :
  Yup.errors_at Field.restrictions (validateYupSchema v) = [] <->
  Forall (fun token => token = [] \/ In token restriction_tokens)
         (restrictions v).
Proof.
  rewrite errors_at_form.
  cbn [schema_of option_map find fst snd Field.eqb OrderSchema
       prepareDataForValidation Yup.validate_value].
  change (Yup.validate_elements [Yup.s_oneOf restriction_tokens]
            Field.restrictions 0 (map blank_string (restrictions v)) = []
          <-> Forall (fun token => token = [] \/ In token restriction_tokens)
                     (restrictions v)).
  rewrite validate_elements_nil, Forall_map, !Forall_forall.
  assert (Htoken : forall token,
    string_value_ok [Yup.s_oneOf restriction_tokens] (blank_string token) = true
    <-> token = [] \/ In token restriction_tokens);
    [|split; intros H token Hin; apply Htoken, H, Hin].
  intros token. rewrite string_value_ok_blank.
  cbn [existsb forallb Yup.is_required Yup.string_test_ok].
  rewrite andb_true_r, jsstring_mem_In. split.
  - intros [[H _] | [_ H]]; auto.
  - intros [H | H]; [left; auto|].
    right. split; [|exact H]. intros Heq. rewrite Heq in H.
    destruct H as [H | [H | [H | []]]]; discriminate.
Qed.

Example restrictions_blank_token :
  validateYupSchema (order [[]] js"morning" []) = [] /\
  Yup.validate OrderSchema (as_given (order [[]] js"morning" [])) <> [].
Proof. split; vm_compute; [reflexivity | discriminate]. Qed.

(** C8.  The message field is accepted when it has at most 200 code units
    and rejected with "Too long!" when it has more, 201 included. *)
Theorem message_max_200 v :
  ((List.length (message v) <= 200)%nat ->
   Yup.errors_at Field.message (validateYupSchema v) = []) /\
  (List.length (message v) = 201%nat ->
   Yup.errors_at Field.message (validateYupSchema v)
     = [error Field.message Yup.t_max js"Too long!"]) /\
  ((200 < List.length (message v))%nat ->
   Yup.errors_at Field.message (validateYupSchema v)
     = [error Field.message Yup.t_max js"Too long!"]).
Proof.
  assert (Hat : Yup.errors_at Field.message (validateYupSchema v)
                = Yup.validate_string [Yup.s_max 200 js"Too long!"]
                    Field.message None (blank_string (message v))).
  { rewrite errors_at_form. reflexivity. }
  rewrite Hat.
  destruct (message v) as [|c r] eqn:Hm.
  - simpl. split; [reflexivity|]. split; intros H; [discriminate | lia].
  - cbn [blank_string]. rewrite <- Hm. unfold Yup.validate_string, Yup.failing.
    cbn [filter Yup.is_oneOf negb Yup.string_test_ok].
    split; [|split]; intros H.
    + apply Nat.leb_le in H. rewrite H. reflexivity.
    + rewrite H. reflexivity.
    + apply Nat.leb_gt in H. rewrite H. reflexivity.
Qed.

Lemma message_max_200_witness :
  (List.length (repeat 97%N 200) <= 200)%nat /\
  Yup.errors_at Field.message
    (validateYupSchema (order [] js"morning" (repeat 97%N 200))) = [] /\
  List.length (repeat 97%N 201) = 201%nat /\
  Yup.errors_at Field.message
    (validateYupSchema (order [] js"morning" (repeat 97%N 201)))
    = [error Field.message Yup.t_max js"Too long!"].
Proof.
  assert (H200 : (List.length (message (order [] js"morning" (repeat 97%N 200)))
                  <= 200)%nat).
  { vm_compute. lia. }
  assert (H201 : List.length (message (order [] js"morning" (repeat 97%N 201)))
                 = 201%nat).
  { vm_compute. reflexivity. }
  split; [exact H200|].
  split; [exact (proj1 (message_max_200 _) H200)|].
  split; [exact H201|].
  exact (proj1 (proj2 (message_max_200 _)) H201).
Defined.

(** ** The seed defaults *)

Lemma empty_category_invalid v :
  category v = [] -> validateYupSchema v <> [].
Proof.
  intros Hc Hok. apply validate_nil_iff in Hok.
  unfold schema_valid in Hok. tauto.
Qed.

(** While the category is empty and no category is selected, nothing is
    ever submitted. *)
Lemma no_category_no_submission evs : forall st,
  settled st ->
  category (values st) = [] ->
  forallb (fun ev => negb (is_category_change ev)) evs = true ->
  console (run_from st evs) = console st.
Proof.
  unfold run_from.
  induction evs as [|ev evs IH]; simpl; intros st Hs Hc Hevs; [reflexivity|].
  apply andb_true_iff in Hevs. destruct Hevs as [Hev Hevs].
  assert (Hstep : category (values (dispatch ev st)) = []
                  /\ console (dispatch ev st) = console st).
  { destruct ev; try discriminate;
      try (unfold dispatch; rewrite effect_category; split;
           [exact Hc | unfold PriceCalculator_effect;
                       destruct (deps_changed _ _); reflexivity]).
    rewrite (dispatch_submit_blocked st Hs (empty_category_invalid _ Hc)).
    split; [exact Hc | reflexivity]. }
  destruct Hstep as [Hc' Hlog].
  rewrite IH; auto. now apply dispatch_settled.
Qed.

(** C10.  The seed defaults fail validation: pricePerKg 0 is below the
    minimum and the empty category is required; no other field has an
    error.  The form holds the seed defaults when it is created and after
    every successful submission; submitting it as it is then is blocked,
    and from a state with an empty category no sequence of events without
    a category selection submits anything. *)
Theorem seed_defaults_rejected :
  validateYupSchema initialFormValues
    = [ error Field.pricePerKg Yup.t_min (js"Min 0.1 z" ++ [322%N]);
        error Field.category Yup.t_required js"Required" ] /\
  values mounted = initialFormValues /\
  (forall st, reachable st ->
     console (dispatch Submit st) <> console st ->
     values (dispatch Submit st) = initialFormValues) /\
  (forall st, reachable st -> values st = initialFormValues ->
     blocked st (dispatch Submit st)) /\
  (forall st evs, reachable st -> category (values st) = [] ->
     forallb (fun ev => negb (is_category_change ev)) evs = true ->
     console (run_from st evs) = console st).
Proof.
  split; [vm_compute; reflexivity|].
  split; [vm_compute; reflexivity|].
  split; [|split].
  - intros st Hr Hlogged. apply reachable_settled in Hr.
    destruct (validateYupSchema (values st)) as [|e rest] eqn:Hv.
    + now apply dispatch_submit_accepted.
    + exfalso. apply Hlogged.
      rewrite dispatch_submit_blocked; [reflexivity | assumption | congruence].
  - intros st Hr Hseed. apply reachable_settled in Hr.
    rewrite dispatch_submit_blocked; [split; reflexivity | assumption |].
    apply empty_category_invalid. now rewrite Hseed.
  - intros st evs Hr. apply no_category_no_submission.
    now apply reachable_settled.
Qed.

Lemma seed_defaults_rejected_witness :
  reachable mounted /\
  values mounted = initialFormValues /\
  blocked mounted (dispatch Submit mounted) /\
  console (run_from mounted
             [ChangeUsername js"Ann"; Submit;
              ChangeWeight (JsNumber.of_Z 2); Submit])
    = console mounted.
Proof.
  destruct seed_defaults_rejected as (_ & Hm & _ & Hseed & Hnone).
  split; [constructor|]. split; [exact Hm|].
  split; [exact (Hseed mounted reachable_mounted Hm)|].
  apply (Hnone mounted); [constructor | rewrite Hm; reflexivity | reflexivity].
Defined.

(** ** The total price *)

Section DecimalDigits.

Import Decimal.

Lemma decimal_value_string_of_uint u : forall acc,
  decimal_value_from acc (JsString.lit (NilEmpty.string_of_uint u))
  = Some (horner acc u).
Proof.
  induction u; intros acc; cbn [NilEmpty.string_of_uint JsString.lit horner];
    [reflexivity | ..];
    cbn [decimal_value_from];
    match goal with
    | |- context [digit_value ?c] =>
        let v := eval vm_compute in (digit_value c) in
        change (digit_value c) with v
    end;
    cbv iota; rewrite ?N.add_0_r; apply IHu.
Qed.

Lemma horner_pos u : forall p,
  horner (Npos p) u = Npos (Pos.of_uint_acc u p).
Proof.
  induction u; intros p; cbn [horner Pos.of_uint_acc]; [reflexivity | ..];
    rewrite <- IHu; f_equal; lia.
Qed.

Lemma horner_zero u : horner 0 u = N.of_uint u.
Proof.
  unfold N.of_uint.
  induction u; cbn [horner Pos.of_uint]; [reflexivity | ..];
    try (rewrite <- horner_pos; reflexivity).
  exact IHu.
Qed.

(** Printing a number and reading the digits gives the number back. *)
Lemma decimal_value_digits n : decimal_value (JsNumber.digits n) = Some n.
Proof.
  unfold decimal_value, JsNumber.digits, NilZero.string_of_uint.
  rewrite <- (DecimalN.Unsigned.of_to n) at 2.
  destruct (N.to_uint n) eqn:Hu;
    try (rewrite decimal_value_string_of_uint, horner_zero; reflexivity).
  reflexivity.
Qed.

Lemma decimal_value_zeros k s :
  decimal_value (JsNumber.zeros k ++ s) = decimal_value s.
Proof.
  unfold decimal_value. induction k as [|k IH]; [reflexivity|].
  simpl. exact IH.
Qed.

End DecimalDigits.

Section TotalPrice.

Import JsNumber.

Lemma geb_tenth_positive x :
  geb x one_tenth = true ->
  x = S754_infinity false \/ exists m e, x = S754_finite false m e.
Proof.
  destruct x as [s|s| |s m e]; try discriminate.
  - destruct s; [discriminate | auto].
  - destruct s; [discriminate | eauto].
Qed.

(** Rounding keeps the sign it is given. *)
Lemma binary_round_aux_sign sx mx ex lx s m e :
  binary_round_aux prec emax sx mx ex lx = S754_finite s m e -> s = sx.
Proof.
  unfold binary_round_aux.
  destruct (shr_fexp prec emax mx ex lx) as [mrs' e'].
  destruct (shr_fexp prec emax _ e' loc_Exact) as [mrs'' e''].
  destruct (shr_m mrs''); try discriminate.
  destruct (Z.leb e'' (emax - prec)); congruence.
Qed.

Lemma mul_finite_sign w p s m e :
  geb w one_tenth = true -> geb p one_tenth = true ->
  mul w p = S754_finite s m e -> s = false.
Proof.
  intros Hw Hp.
  destruct (geb_tenth_positive w Hw) as [-> | [mw [ew ->]]];
    destruct (geb_tenth_positive p Hp) as [-> | [mp [ep ->]]];
    try discriminate.
  unfold mul, SFmul. apply binary_round_aux_sign.
Qed.

Lemma to_Q_positive m e : (0 < to_Q (S754_finite false m e))%Q.
Proof.
  unfold to_Q. apply Qmult_lt_0_compat.
  - reflexivity.
  - now apply Qpower_0_lt.
Qed.

(** The integer chosen by [toFixed]: nearest to the scaled value, the
    larger one of two equally near. *)
Lemma nearest_scaled_bounds f x :
  (inject_Z (nearest_scaled f x) - (1 # 2) <= x * pow10 f
   /\ x * pow10 f < inject_Z (nearest_scaled f x) + (1 # 2))%Q.
Proof.
  unfold nearest_scaled.
  pose proof (Qfloor_le (x * pow10 f + (1 # 2))) as Hle.
  pose proof (Qlt_floor (x * pow10 f + (1 # 2))) as Hlt.
  rewrite inject_Z_plus in Hlt.
  set (n := inject_Z (Qfloor (x * pow10 f + (1 # 2)))) in *.
  set (y := (x * pow10 f)%Q) in *.
  split.
  - apply Qplus_le_l with (z := (1 # 2)%Q).
    setoid_replace (n - (1 # 2) + (1 # 2))%Q with n by ring. exact Hle.
  - apply Qplus_lt_l with (z := (1 # 2)%Q).
    setoid_replace (n + (1 # 2) + (1 # 2))%Q with (n + inject_Z 1)%Q by ring.
    exact Hlt.
Qed.

Lemma nearest_scaled_nonneg f x : (0 <= x)%Q -> 0 <= nearest_scaled f x.
Proof.
  intros Hx. unfold nearest_scaled.
  change 0 with (Qfloor 0). apply Qfloor_resp_le.
  apply Qle_trans with (y := (x * pow10 f)%Q).
  - apply Qmult_le_0_compat; [assumption|].
    unfold pow10. change 0%Q with (inject_Z 0). rewrite <- Zle_Qle.
    apply Z.pow_nonneg. lia.
  - rewrite <- (Qplus_0_r (x * pow10 f)) at 1.
    apply Qplus_le_r. discriminate.
Qed.

(** Two digits after the point, and the digits together denote [n]. *)
Lemma fixed_digits_two n :
  exists a b,
    fixed_digits 2 n = a ++ JsString.lit "." ++ b /\
    List.length b = 2%nat /\
    decimal_value (a ++ b) = Some (Z.to_N n).
Proof.
  unfold fixed_digits.
  set (m := digits (Z.to_N n)).
  set (m' := if Nat.leb (List.length m) 2
             then zeros (2 + 1 - List.length m) ++ m else m).
  assert (Hlen : (3 <= List.length m')%nat).
  { unfold m'. destruct (Nat.leb (List.length m) 2) eqn:Hk.
    - apply Nat.leb_le in Hk. unfold zeros.
      rewrite length_app, repeat_length. lia.
    - apply Nat.leb_gt in Hk. lia. }
  assert (Hval : decimal_value m' = Some (Z.to_N n)).
  { unfold m'. destruct (Nat.leb (List.length m) 2).
    - rewrite decimal_value_zeros. apply decimal_value_digits.
    - apply decimal_value_digits. }
  exists (firstn (List.length m' - 2) m'), (skipn (List.length m' - 2) m').
  split; [reflexivity|]. split.
  - rewrite length_skipn. lia.
  - now rewrite firstn_skipn.
Qed.

End TotalPrice.

(** C2, as the code has it.  For w >= 0.1 and p >= 0.1 whose double
    product x = w * p is finite and below 10^21, calculatePrice returns the
    decimal numeral, with exactly two digits after the point, of the
    integer n nearest to 100 x (the larger of two equally near): it is the
    double product that is rounded to 2 decimal places. *)
Theorem calculatePrice_rounds_double_product w p s m e :
  JsNumber.geb w JsNumber.one_tenth = true ->
  JsNumber.geb p JsNumber.one_tenth = true ->
  JsNumber.mul w p = S754_finite s m e ->
  (JsNumber.to_Q (JsNumber.mul w p) < inject_Z (10 ^ 21))%Q ->
  exists (n : N) (a b : jsstring),
    (inject_Z (Z.of_N n) - (1 # 2) <= JsNumber.to_Q (JsNumber.mul w p) * inject_Z 100
     /\ JsNumber.to_Q (JsNumber.mul w p) * inject_Z 100 < inject_Z (Z.of_N n) + (1 # 2))%Q /\
    calculatePrice w p = a ++ js"." ++ b /\
    List.length b = 2%nat /\
    decimal_value (a ++ b) = Some n.
Proof.
  intros Hw Hp Hx Hsmall.
  assert (Hs : s = false) by exact (mul_finite_sign w p s m e Hw Hp Hx).
  subst s. unfold calculatePrice. rewrite Hx in *.
  set (x := JsNumber.to_Q (S754_finite false m e)) in *.
  set (n := JsNumber.nearest_scaled 2 x).
  assert (Hn : 0 <= n).
  { apply nearest_scaled_nonneg, Qlt_le_weak, to_Q_positive. }
  destruct (fixed_digits_two n) as (a & b & Hfmt & Hlen & Hval).
  exists (Z.to_N n), a, b.
  rewrite Z2N.id by exact Hn.
  split; [exact (nearest_scaled_bounds 2 x)|].
  split; [|split; assumption].
  unfold JsNumber.toFixed. fold x.
  destruct (Qle_bool (inject_Z (10 ^ 21)) x) eqn:Hbig.
  - apply Qle_bool_iff in Hbig. exfalso.
    exact (Qlt_not_le _ _ Hsmall Hbig).
  - exact Hfmt.
Qed.

Lemma calculatePrice_rounds_double_product_witness :
  JsNumber.geb (JsNumber.of_Z 2) JsNumber.one_tenth = true /\
  JsNumber.geb (JsNumber.of_Z 50) JsNumber.one_tenth = true /\
  JsNumber.mul (JsNumber.of_Z 2) (JsNumber.of_Z 50)
    = S754_finite false 7036874417766400 (-46) /\
  (JsNumber.to_Q (JsNumber.mul (JsNumber.of_Z 2) (JsNumber.of_Z 50))
   < inject_Z (10 ^ 21))%Q /\
  exists (n : N) (a b : jsstring),
    (inject_Z (Z.of_N n) - (1 # 2)
       <= JsNumber.to_Q (JsNumber.mul (JsNumber.of_Z 2) (JsNumber.of_Z 50)) * inject_Z 100
     /\ JsNumber.to_Q (JsNumber.mul (JsNumber.of_Z 2) (JsNumber.of_Z 50)) * inject_Z 100
        < inject_Z (Z.of_N n) + (1 # 2))%Q /\
    calculatePrice (JsNumber.of_Z 2) (JsNumber.of_Z 50) = a ++ js"." ++ b /\
    List.length b = 2%nat /\
    decimal_value (a ++ b) = Some n.
Proof.
  assert (Hw : JsNumber.geb (JsNumber.of_Z 2) JsNumber.one_tenth = true).
  { vm_compute. reflexivity. }
  assert (Hp : JsNumber.geb (JsNumber.of_Z 50) JsNumber.one_tenth = true).
  { vm_compute. reflexivity. }
  assert (Hx : JsNumber.mul (JsNumber.of_Z 2) (JsNumber.of_Z 50)
               = S754_finite false 7036874417766400 (-46)).
  { vm_compute. reflexivity. }
  assert (Hsmall : (JsNumber.to_Q (JsNumber.mul (JsNumber.of_Z 2) (JsNumber.of_Z 50))
                    < inject_Z (10 ^ 21))%Q).
  { vm_compute. reflexivity. }
  split; [exact Hw|]. split; [exact Hp|]. split; [exact Hx|].
  split; [exact Hsmall|].
  exact (calculatePrice_rounds_double_product _ _ _ _ _ Hw Hp Hx Hsmall).
Defined.

(** C2, as stated, fails.  Both values are at least 0.1 and
    their exact product, 0.125 (1 - 2^-104), lies below 0.125, so rounded
    to 2 decimal places it is 0.12; the double product is exactly 0.125,
    which [toFixed] prints as "0.13". *)
Lemma total_price_double_rounding :
  JsNumber.valid just_above_one = true /\
  JsNumber.valid just_below_eighth = true /\
  JsNumber.geb just_above_one JsNumber.one_tenth = true /\
  JsNumber.geb just_below_eighth JsNumber.one_tenth = true /\
  (JsNumber.to_Q just_above_one * JsNumber.to_Q just_below_eighth < 1 # 8)%Q /\
  rounded_product just_above_one just_below_eighth = js"0.12" /\
  calculatePrice just_above_one just_below_eighth = js"0.13" /\
  calculatePrice just_above_one just_below_eighth
    <> rounded_product just_above_one just_below_eighth.
Proof.
  repeat split; try (vm_compute; reflexivity).
  vm_compute. discriminate.
Qed.

(** From 10^21 on, and for an infinite product, the result is not a
    numeral with two decimals at all. *)
Example total_price_large :
  calculatePrice (JsNumber.of_Z (10 ^ 21)) (JsNumber.of_Z 1) = js"1e+21" /\
  calculatePrice (S754_infinity false) (JsNumber.of_Z 1) = js"Infinity".
Proof. split; vm_compute; reflexivity. Qed.

(** * The form beyond the claims *)

(** ** Invariants of the reachable states *)

Lemma effect_console st : console (PriceCalculator_effect st) = console st.
Proof.
  unfold PriceCalculator_effect.
  destruct (deps_changed (effect_deps st) (category (values st))); reflexivity.
Qed.

Lemma effect_touched st : touched (PriceCalculator_effect st) = touched st.
Proof.
  unfold PriceCalculator_effect.
  destruct (deps_changed (effect_deps st) (category (values st))); reflexivity.
Qed.

(** The effect writes nothing but [pricePerKg]. *)
Lemma effect_other_fields st :
  let v := values st in
  let v' := values (PriceCalculator_effect st) in
  username v' = username v /\ tel v' = tel v /\ email v' = email v /\
  delivery v' = delivery v /\ restrictions v' = restrictions v /\
  deliveryTime v' = deliveryTime v /\ message v' = message v /\
  weight v' = weight v /\ category v' = category v.
Proof.
  unfold PriceCalculator_effect.
  destruct (deps_changed (effect_deps st) (category (values st)));
    simpl; repeat split.
Qed.

Lemma effect_errors st :
  errors st = validateYupSchema (values st) ->
  errors (PriceCalculator_effect st)
  = validateYupSchema (values (PriceCalculator_effect st)).
Proof.
  intros H. unfold PriceCalculator_effect.
  destruct (deps_changed (effect_deps st) (category (values st)));
    [reflexivity | exact H].
Qed.

(** What a submission does, by the outcome of validation. *)
Lemma dispatch_submit_accepted_state st :
  settled st ->
  validateYupSchema (values st) = [] ->
  dispatch Submit st =
  {| values := initialFormValues;
     errors := validateYupSchema initialFormValues;
     touched := [];
     effect_deps := Some [];
     console := console st
                ++ [ {| logged := values st;
                        totalPrice := calculatePrice
                                        (ToNumber (weight (values st)))
                                        (ToNumber (pricePerKg (values st))) |} ] |}.
Proof.
  intros [Hdeps _] Hok.
  assert (Hc : category (values st) <> []).
  { apply validate_nil_iff in Hok. unfold schema_valid in Hok. tauto. }
  unfold dispatch. change (handle Submit st) with (submitForm st).
  unfold submitForm. rewrite Hok.
  unfold handleSubmit, resetForm, PriceCalculator_effect.
  cbn [values effect_deps category initialFormValues].
  rewrite Hdeps. cbn [deps_changed].
  destruct (JsString.eqb [] (category (values st))) eqn:Heq.
  - apply jsstring_eqb_eq in Heq. congruence.
  - reflexivity.
Qed.

Lemma reachable_errors st :
  reachable st -> errors st = validateYupSchema (values st).
Proof.
  induction 1 as [|ev st Hev Hr IH]; [reflexivity|].
  destruct ev; try (unfold dispatch; apply effect_errors; reflexivity).
  destruct (validateYupSchema (values st)) as [|e rest] eqn:Hv.
  - rewrite (dispatch_submit_accepted_state st (reachable_settled st Hr) Hv).
    reflexivity.
  - rewrite (dispatch_submit_blocked st (reachable_settled st Hr));
      [reflexivity | congruence].
Qed.

(** A submission either resets the values to the seed defaults or leaves
    them as they are. *)
Lemma submit_values st :
  values (handle Submit st) = initialFormValues \/
  values (handle Submit st) = values st.
Proof.
  simpl. unfold submitForm.
  destruct (validateYupSchema (values st)); [left | right]; reflexivity.
Qed.

(** The select elements and the radio group never hold a value they do
    not offer. *)
Lemma reachable_delivery st :
  reachable st -> In (delivery (values st)) delivery_options.
Proof.
  induction 1 as [|ev st Hev Hr IH]; [left; reflexivity|].
  unfold dispatch.
  rewrite (proj1 (proj2 (proj2 (proj2 (effect_other_fields (handle ev st)))))).
  destruct ev; try exact IH.
  - apply jsstring_mem_In. exact Hev.
  - destruct (submit_values st) as [H | H]; rewrite H;
      [left; reflexivity | exact IH].
Qed.

Lemma reachable_deliveryTime st :
  reachable st -> In (deliveryTime (values st)) deliveryTime_options.
Proof.
  induction 1 as [|ev st Hev Hr IH]; [right; right; left; reflexivity|].
  unfold dispatch.
  destruct (effect_other_fields (handle ev st))
    as (_ & _ & _ & _ & _ & Htime & _). rewrite Htime.
  destruct ev; try exact IH.
  - apply jsstring_mem_In. exact Hev.
  - destruct (submit_values st) as [H | H]; rewrite H;
      [right; right; left; reflexivity | exact IH].
Qed.

(** The weight is a number that is not NaN, or the empty string. *)
Lemma reachable_weight st : reachable st -> weight_entered (weight (values st)).
Proof.
  induction 1 as [|ev st Hev Hr IH].
  - right. eexists. split; reflexivity.
  - unfold dispatch.
    destruct (effect_other_fields (handle ev st))
      as (_ & _ & _ & _ & _ & _ & _ & Hw & _). rewrite Hw.
    destruct ev; try exact IH.
    + simpl. destruct (JsNumber.is_nan parsed) eqn:Hnan.
      * left. reflexivity.
      * right. exists parsed. auto.
    + destruct (submit_values st) as [H | H]; rewrite H; [|exact IH].
      right. eexists. split; reflexivity.
Qed.

(** The price is 0 or one of the four rates of the table. *)
Lemma reachable_price st :
  reachable st -> In (pricePerKg (values st)) table_prices.
Proof.
  intros Hr. destruct (reachable_settled st Hr) as [_ Hprice].
  rewrite Hprice.
  destruct (reachable_category st Hr) as [<- | [<- | [<- | [<- | [<- | []]]]]];
    vm_compute; tauto.
Qed.

(** A rate of the table passes the schema of [pricePerKg]. *)
Lemma selected_price_valid st :
  reachable st -> category (values st) <> [] ->
  In (category (values st)) (keys categoryPrices) /\
  exists x, pricePerKg (values st) = VNumber x
            /\ JsNumber.geb x JsNumber.one_tenth = true.
Proof.
  intros Hr Hne. destruct (reachable_settled st Hr) as [_ Hprice].
  rewrite Hprice.
  destruct (reachable_category st Hr) as [H | H]; [congruence|].
  split; [exact H|].
  destruct H as [<- | [<- | [<- | [<- | []]]]];
    eexists; split; reflexivity.
Qed.

(** In a reachable state validation passes exactly when the fields the
    user edits are in order. *)
Lemma reachable_valid_iff st :
  reachable st ->
  validateYupSchema (values st) = [] <-> ready_to_submit (values st).
Proof.
  intros Hr. rewrite validate_nil_iff. unfold schema_valid, ready_to_submit.
  split.
  - tauto.
  - intros (Hu & Ht & He & Hdt & Hm & Hw & Hc).
    destruct (selected_price_valid st Hr Hc) as [_ Hp].
    rewrite (reachable_restrictions st Hr).
    pose proof (reachable_delivery st Hr) as Hd.
    repeat split; try assumption. constructor.
Qed.

(** ** The price table and its select element *)

Lemma own_property_keys o key :
  In key (keys o) <-> exists v, own_property o key = Some v.
Proof.
  induction o as [|[k v] o IH]; simpl.
  - split; [contradiction | intros [v H]; discriminate].
  - destruct (JsString.eqb key k) eqn:Heq.
    + apply jsstring_eqb_eq in Heq. subst. split; eauto.
    + rewrite <- IH. split; [|auto].
      intros [H | H]; [|exact H].
      subst. rewrite jsstring_eqb_refl in Heq. discriminate.
Qed.

(** X1.  For any object literal with number values, the names listed by
    [Object.keys] are exactly the names whose lookup gives a number: every
    option built from the keys of the price table has a rate, and no other
    name has one. *)
Theorem keys_are_the_priced_names (o : JsObject) (key : jsstring) :
  In key (keys o) <-> exists v, get o key = VNumber v.
Proof.
  rewrite own_property_keys. unfold get. split.
  - intros [v Hv]. rewrite Hv. eauto.
  - intros [v Hv]. destruct (own_property o key) as [v'|]; [eauto|].
    destruct (JsString.mem key object_prototype_keys); discriminate.
Qed.

Lemma keys_are_the_priced_names_witness :
  In js"Temu" (keys categoryPrices) /\
  (exists v, get categoryPrices js"Temu" = VNumber v) /\
  ~ (exists v, get categoryPrices js"valueOf" = VNumber v).
Proof.
  assert (Hin : In js"Temu" (keys categoryPrices)).
  { vm_compute. tauto. }
  assert (Hout : ~ In js"valueOf" (keys categoryPrices)).
  { vm_compute. intuition discriminate. }
  split; [exact Hin|]. split.
  - exact (proj1 (keys_are_the_priced_names categoryPrices js"Temu") Hin).
  - intros H. apply Hout.
    exact (proj2 (keys_are_the_priced_names categoryPrices js"valueOf") H).
Defined.

(** X2.  Whatever option of the category select is chosen, other than the
    empty one, the effect stores the rate the table has for it, and
    neither [pricePerKg] nor [category] has a validation error
    afterwards. *)
Theorem offered_category_is_valid st c :
  reachable st ->
  In c (keys categoryPrices) ->
  let st' := dispatch (ChangeCategory c) st in
  deliverable (ChangeCategory c) = true /\
  (exists rate, own_property categoryPrices c = Some rate
                /\ pricePerKg (values st') = VNumber rate
                /\ JsNumber.geb rate JsNumber.one_tenth = true) /\
  Yup.errors_at Field.pricePerKg (errors st') = [] /\
  Yup.errors_at Field.category (errors st') = [].
Proof.
  intros Hr Hin st'.
  assert (Hev : deliverable (ChangeCategory c) = true).
  { apply jsstring_mem_In. now right. }
  assert (Hr' : reachable st') by now constructor.
  destruct (dispatch_change_category c st) as [Hcat _]. fold st' in Hcat.
  assert (Hne : c <> []).
  { intros ->. vm_compute in Hin. intuition discriminate. }
  assert (Hprice : pricePerKg (values st') = derived_price c).
  { unfold st'. apply category_change_price. now apply reachable_settled. }
  split; [exact Hev|].
  rewrite (reachable_errors st' Hr'), !errors_at_form.
  cbn [schema_of option_map find fst snd Field.eqb OrderSchema
       prepareDataForValidation Yup.validate_value].
  rewrite Hprice, Hcat.
  destruct Hin as [<- | [<- | [<- | [<- | []]]]];
    (split; [eexists; repeat split; reflexivity | split; reflexivity]).
Qed.

Lemma offered_category_is_valid_witness :
  reachable mounted /\
  In js"Amazon cat B" (keys categoryPrices) /\
  pricePerKg (values (dispatch (ChangeCategory js"Amazon cat B") mounted))
    = VNumber (JsNumber.of_Z 25) /\
  Yup.errors_at Field.pricePerKg
    (errors (dispatch (ChangeCategory js"Amazon cat B") mounted)) = [].
Proof.
  assert (Hin : In js"Amazon cat B" (keys categoryPrices)).
  { vm_compute. tauto. }
  destruct (offered_category_is_valid mounted js"Amazon cat B"
              reachable_mounted Hin)
    as (_ & (rate & Hown & Hprice & _) & Herr & _).
  split; [constructor|]. split; [exact Hin|]. split; [|exact Herr].
  rewrite Hprice. f_equal.
  assert (Hrate : own_property categoryPrices js"Amazon cat B"
                  = Some (JsNumber.of_Z 25)) by reflexivity.
  congruence.
Defined.

(** ** Inline error messages *)

(** X3.  In every reachable state Formik's errors are those of the current
    values.  So a message shown in a slot is an error of a touched field
    for the value it holds now, and a field whose value passes its schema
    shows no message. *)
Theorem messages_follow_values st :
  reachable st ->
  errors st = validateYupSchema (values st) /\
  (forall f e, ErrorMessage f st = Some e ->
     In f (touched st) /\
     In e (validateYupSchema (values st)) /\
     Yup.err_field e = f) /\
  (forall f, Yup.errors_at f (validateYupSchema (values st)) = [] ->
     ErrorMessage f st = None).
Proof.
  intros Hr. pose proof (reachable_errors st Hr) as Herr.
  split; [exact Herr|]. unfold ErrorMessage. rewrite Herr. split.
  - intros f e.
    destruct (existsb (Field.eqb f) (touched st)) eqn:Ht; [|discriminate].
    intros He. split.
    + apply existsb_exists in Ht. destruct Ht as [g [Hg Heq]].
      unfold Field.eqb in Heq. destruct (Field.eq_dec f g); [now subst | discriminate].
    + destruct (Yup.errors_at f (validateYupSchema (values st)))
        as [|e' rest] eqn:Hat; [discriminate|].
      injection He as ->.
      assert (Hin : In e (Yup.errors_at f (validateYupSchema (values st)))).
      { rewrite Hat. now left. }
      unfold Yup.errors_at in Hin. apply filter_In in Hin.
      destruct Hin as [Hin Hf]. split; [exact Hin|].
      unfold Field.eqb in Hf.
      destruct (Field.eq_dec (Yup.err_field e) f); [assumption | discriminate].
  - intros f Hnil. rewrite Hnil.
    destruct (existsb (Field.eqb f) (touched st)); reflexivity.
Qed.

Lemma messages_follow_values_witness :
  reachable (dispatch Submit (run rejected_inputs)) /\
  ErrorMessage Field.email (dispatch Submit (run rejected_inputs))
    = Some (error Field.email Yup.t_email js"Invalid email") /\
  In Field.email (touched (dispatch Submit (run rejected_inputs))) /\
  In (error Field.email Yup.t_email js"Invalid email")
     (validateYupSchema (values (dispatch Submit (run rejected_inputs)))).
Proof.
  assert (Hr : reachable (dispatch Submit (run rejected_inputs))).
  { constructor; [reflexivity | exact reachable_rejected_inputs]. }
  assert (Hmsg : ErrorMessage Field.email (dispatch Submit (run rejected_inputs))
                 = Some (error Field.email Yup.t_email js"Invalid email")).
  { vm_compute. reflexivity. }
  destruct (messages_follow_values _ Hr) as (_ & Hshown & _).
  destruct (Hshown _ _ Hmsg) as (Ht & Hin & _).
  split; [exact Hr|]. split; [exact Hmsg|]. split; assumption.
Defined.

Lemma change_touched ev st :
  is_change ev = true -> touched (dispatch ev st) = touched st.
Proof.
  intros Hev. unfold dispatch. rewrite effect_touched.
  destruct ev; try discriminate; reflexivity.
Qed.

(** X4.  Changes alone never touch a field: however much is typed or
    selected in a freshly mounted form, no slot shows a message until a
    field is blurred or the form is submitted. *)
Theorem typing_shows_no_message evs f :
  forallb is_change evs = true ->
  touched (run evs) = [] /\ ErrorMessage f (run evs) = None.
Proof.
  intros Hevs.
  assert (Ht : forall st, touched (run_from st evs) = touched st).
  { unfold run_from. induction evs as [|ev evs IH]; simpl; intros st;
      [reflexivity|].
    simpl in Hevs. apply andb_true_iff in Hevs. destruct Hevs as [Hev Hevs].
    rewrite (IH Hevs). now apply change_touched. }
  assert (Hnone : touched (run evs) = []).
  { unfold run. rewrite Ht. reflexivity. }
  split; [exact Hnone|]. unfold ErrorMessage. now rewrite Hnone.
Qed.

Lemma typing_shows_no_message_witness :
  forallb is_change rejected_inputs = true /\
  Yup.errors_at Field.username (errors (run rejected_inputs)) <> [] /\
  ErrorMessage Field.username (run rejected_inputs) = None.
Proof.
  assert (Hevs : forallb is_change rejected_inputs = true) by reflexivity.
  split; [exact Hevs|]. split.
  - vm_compute. discriminate.
  - exact (proj2 (typing_shows_no_message rejected_inputs Field.username Hevs)).
Defined.

(** X5.  Leaving a field shows its message at once: after a blur the slot
    of the field shows the first error of its current value, if it has
    one; the values and the console are as before. *)
Theorem blur_shows_message st f :
  reachable st ->
  let st' := dispatch (Blur f) st in
  values st' = values st /\
  console st' = console st /\
  ErrorMessage f st'
    = hd_error (Yup.errors_at f (validateYupSchema (values st))).
Proof.
  intros Hr st'.
  assert (Hst' : st' = handle (Blur f) st).
  { unfold st', dispatch. apply effect_idle.
    destruct (reachable_settled st Hr) as [Hdeps Hprice].
    split; assumption. }
  rewrite Hst'. cbn [handle values console].
  split; [reflexivity|]. split; [reflexivity|].
  unfold ErrorMessage. cbn [touched errors existsb].
  unfold Field.eqb at 1. destruct (Field.eq_dec f f); [reflexivity | congruence].
Qed.

Lemma blur_shows_message_witness :
  reachable (run rejected_inputs) /\
  ErrorMessage Field.tel (dispatch (Blur Field.tel) (run rejected_inputs))
    = Some (error Field.tel Yup.t_min js"Too Short!").
Proof.
  split; [exact reachable_rejected_inputs|].
  destruct (blur_shows_message (run rejected_inputs) Field.tel
              reachable_rejected_inputs) as (_ & _ & Hmsg).
  rewrite Hmsg. vm_compute. reflexivity.
Defined.

(** ** Submission *)

(** X6.  A submission goes through exactly when the fields the user edits
    are in order: username of 2 and tel of 5 code units at least, a
    well-formed email, a delivery time, a message of at most 200 code
    units, a weight of at least 0.1 and a category.  Otherwise it is
    blocked. *)
Theorem submission_goes_through_iff_ready st :
  reachable st ->
  (console (dispatch Submit st) <> console st
   <-> ready_to_submit (values st)) /\
  (~ ready_to_submit (values st) -> blocked st (dispatch Submit st)).
Proof.
  intros Hr. pose proof (reachable_valid_iff st Hr) as Hiff.
  pose proof (reachable_settled st Hr) as Hs.
  destruct (validateYupSchema (values st)) as [|e rest] eqn:Hv.
  - assert (Hready : ready_to_submit (values st)) by now apply Hiff.
    destruct (dispatch_submit_accepted st Hv) as [Hlog _].
    split; [|tauto]. split; [auto|].
    intros _ Heq. rewrite Hlog in Heq.
    apply (f_equal (@List.length LogEntry)) in Heq.
    rewrite length_app in Heq. simpl in Heq. lia.
  - assert (Hbad : validateYupSchema (values st) <> []) by congruence.
    assert (Hnot : ~ ready_to_submit (values st)).
    { intros H. apply Hiff in H. congruence. }
    rewrite (dispatch_submit_blocked st Hs Hbad).
    split; [|intros _; split; reflexivity].
    split; [intros H; exfalso; now apply H | tauto].
Qed.

Lemma submission_goes_through_iff_ready_witness :
  reachable (run ann) /\
  ready_to_submit (values (run ann)) /\
  console (dispatch Submit (run ann)) <> console (run ann) /\
  reachable mounted /\
  ~ ready_to_submit (values mounted) /\
  blocked mounted (dispatch Submit mounted).
Proof.
  assert (Hready : ready_to_submit (values (run ann))).
  { apply (reachable_valid_iff _ reachable_ann). vm_compute. reflexivity. }
  assert (Hnot : ~ ready_to_submit (values mounted)).
  { intros H. apply (reachable_valid_iff _ reachable_mounted) in H.
    vm_compute in H. discriminate. }
  split; [exact reachable_ann|]. split; [exact Hready|].
  split; [exact (proj2 (proj1 (submission_goes_through_iff_ready
                                 (run ann) reachable_ann)) Hready)|].
  split; [constructor|]. split; [exact Hnot|].
  exact (proj2 (submission_goes_through_iff_ready mounted reachable_mounted) Hnot).
Defined.

(** X7.  A submission that goes through leaves the form as a freshly
    mounted one: the same values, errors, touched fields and effect
    dependency, no message in any slot, and one more entry in the
    console. *)
Theorem accepted_submission_remounts st :
  reachable st ->
  ready_to_submit (values st) ->
  let st' := dispatch Submit st in
  values st' = values mounted /\
  errors st' = errors mounted /\
  touched st' = touched mounted /\
  effect_deps st' = effect_deps mounted /\
  (forall f, ErrorMessage f st' = None) /\
  exists entry, console st' = console st ++ [entry]
                /\ logged entry = values st.
Proof.
  intros Hr Hready st'.
  assert (Hv : validateYupSchema (values st) = []).
  { now apply (reachable_valid_iff st Hr). }
  unfold st'.
  rewrite (dispatch_submit_accepted_state st (reachable_settled st Hr) Hv).
  cbn [values errors touched effect_deps console].
  repeat split; try reflexivity.
  eexists. split; reflexivity.
Qed.

Lemma accepted_submission_remounts_witness :
  reachable (run ann) /\
  ready_to_submit (values (run ann)) /\
  values (dispatch Submit (run ann)) = values mounted /\
  touched (dispatch Submit (run ann)) = touched mounted.
Proof.
  assert (Hready : ready_to_submit (values (run ann))).
  { apply (reachable_valid_iff _ reachable_ann). vm_compute. reflexivity. }
  destruct (accepted_submission_remounts (run ann) reachable_ann Hready)
    as (Hv & _ & Ht & _).
  split; [exact reachable_ann|]. split; [exact Hready|]. split; assumption.
Defined.

Lemma dispatch_console ev st :
  is_submit ev = false -> console (dispatch ev st) = console st.
Proof.
  intros Hev. unfold dispatch. rewrite effect_console.
  destruct ev; try discriminate; reflexivity.
Qed.

(** X8.  Only the submit button writes to the console: any other event
    leaves it as it is, and a submission appends at most one entry and
    never removes or alters one. *)
Theorem only_submission_logs ev st :
  (is_submit ev = false -> console (dispatch ev st) = console st) /\
  exists added, console (dispatch ev st) = console st ++ added
                /\ (List.length added <= 1)%nat.
Proof.
  split; [apply dispatch_console|].
  destruct (is_submit ev) eqn:Hev.
  - destruct ev; try discriminate.
    unfold dispatch. rewrite effect_console.
    change (handle Submit st) with (submitForm st). unfold submitForm.
    destruct (validateYupSchema (values st)).
    + eexists. split; [reflexivity | simpl; lia].
    + exists []. split; [now rewrite app_nil_r | simpl; lia].
  - exists []. rewrite app_nil_r. split; [now apply dispatch_console | simpl; lia].
Qed.

Lemma only_submission_logs_witness :
  is_submit (ChangeWeight (JsNumber.of_Z 3)) = false /\
  console (dispatch (ChangeWeight (JsNumber.of_Z 3)) (run ann)) = console (run ann).
Proof.
  assert (Hev : is_submit (ChangeWeight (JsNumber.of_Z 3)) = false) by reflexivity.
  split; [exact Hev|].
  exact (proj1 (only_submission_logs (ChangeWeight (JsNumber.of_Z 3)) (run ann)) Hev).
Defined.

(** X9.  Everything in the console is a valid order: each entry holds
    values that passed validation, with a category of the table, the rate
    of that category as [pricePerKg], and the total computed from its own
    weight and rate. *)
Theorem console_holds_valid_orders st :
  reachable st -> Forall well_logged (console st).
Proof.
  induction 1 as [|ev st Hev Hr IH]; [constructor|].
  destruct (is_submit ev) eqn:Hsub.
  - destruct ev; try discriminate.
    destruct (validateYupSchema (values st)) as [|e rest] eqn:Hv.
    + destruct (dispatch_submit_accepted st Hv) as [Hlog _]. rewrite Hlog.
      apply Forall_app. split; [exact IH|]. constructor; [|constructor].
      assert (Hvalid : schema_valid (values st)) by now apply validate_nil_iff.
      assert (Hc : category (values st) <> []).
      { unfold schema_valid in Hvalid. tauto. }
      destruct (selected_price_valid st Hr Hc) as [Hkey _].
      destruct (reachable_settled st Hr) as [_ Hprice].
      unfold well_logged. cbn [logged totalPrice].
      split; [exact Hvalid|]. split; [exact Hkey|]. split; [|reflexivity].
      rewrite Hprice. unfold derived_price.
      destruct (category (values st)); [congruence | reflexivity].
    + rewrite dispatch_submit_blocked;
        [exact IH | now apply reachable_settled | congruence].
  - rewrite dispatch_console by exact Hsub. exact IH.
Qed.

Lemma console_holds_valid_orders_witness :
  reachable (dispatch Submit (run ann)) /\
  console (dispatch Submit (run ann)) <> [] /\
  Forall well_logged (console (dispatch Submit (run ann))).
Proof.
  assert (Hr : reachable (dispatch Submit (run ann))).
  { constructor; [reflexivity | exact reachable_ann]. }
  split; [exact Hr|]. split.
  - vm_compute. discriminate.
  - exact (console_holds_valid_orders _ Hr).
Defined.

(** ** The effect and its dependency *)

(** X10.  The effect runs only when the category changes: after an event
    that leaves the category as it was, the state is the one the event
    handler produced, with [pricePerKg] and the errors untouched by the
    effect. *)
Theorem effect_waits_for_category ev st :
  reachable st ->
  category (values (handle ev st)) = category (values st) ->
  dispatch ev st = handle ev st /\
  pricePerKg (values (dispatch ev st)) = pricePerKg (values st).
Proof.
  intros Hr Hsame. destruct (reachable_settled st Hr) as [Hdeps Hprice].
  assert (Hidle : dispatch ev st = handle ev st).
  { unfold dispatch, PriceCalculator_effect.
    rewrite handle_deps, Hdeps, Hsame. cbn [deps_changed].
    now rewrite jsstring_eqb_refl. }
  split; [exact Hidle|]. rewrite Hidle.
  destruct (handle_price ev st) as [Hreset | Hkept]; [|exact Hkept].
  rewrite Hreset in *. cbn [category pricePerKg initialFormValues] in *.
  rewrite Hprice, <- Hsame. reflexivity.
Qed.

Lemma effect_waits_for_category_witness :
  reachable (run ann) /\
  dispatch (ChangeWeight (JsNumber.of_Z 3)) (run ann)
    = handle (ChangeWeight (JsNumber.of_Z 3)) (run ann) /\
  pricePerKg (values (dispatch (ChangeWeight (JsNumber.of_Z 3)) (run ann)))
    = pricePerKg (values (run ann)).
Proof.
  split; [exact reachable_ann|].
  exact (effect_waits_for_category (ChangeWeight (JsNumber.of_Z 3)) (run ann)
           reachable_ann eq_refl).
Defined.

(** ** What PriceCalculator renders *)

Lemma mul_NaN_r x : JsNumber.mul x JsNumber.NaN = JsNumber.NaN.
Proof. destruct x; reflexivity. Qed.

Lemma toFixed_zero s : JsNumber.toFixed 2 (S754_zero s) = js"0.00".
Proof. vm_compute. reflexivity. Qed.

(** A number that is neither NaN nor infinite, times 0 or a signed zero,
    is a signed zero. *)
Lemma mul_zero_r x s :
  JsNumber.is_nan x = false ->
  (forall sx, x <> S754_infinity sx) ->
  exists s', JsNumber.mul x (S754_zero s) = S754_zero s'.
Proof.
  intros Hnan Hinf. destruct x as [sx|sx| |sx m e]; simpl.
  - eauto.
  - exfalso. now apply (Hinf sx).
  - discriminate.
  - eauto.
Qed.

(** X11.  With a category that is neither in the table nor inherited, the
    price is [undefined]: the total renders as "NaN" whatever the weight,
    the field [pricePerKg] fails with "Required", and a submission is
    blocked. *)
Theorem unknown_category_renders_NaN st c :
  reachable st ->
  c <> [] ->
  ~ In c (keys categoryPrices) ->
  ~ In c object_prototype_keys ->
  let st' := dispatch (ChangeCategory c) st in
  rendered_total st' = js"NaN" /\
  Yup.errors_at Field.pricePerKg (errors st')
    = [error Field.pricePerKg Yup.t_required js"Required"] /\
  blocked st' (dispatch Submit st').
Proof.
  intros Hr Hne Hkey Hproto st'.
  assert (Hs : settled st').
  { apply dispatch_settled. now apply reachable_settled. }
  destruct (dispatch_change_category c st) as [Hcat Herrs].
  fold st' in Hcat, Herrs.
  assert (Hprice : pricePerKg (values st') = VUndefined).
  { unfold st'. rewrite category_change_price by now apply reachable_settled.
    unfold derived_price, get. rewrite (own_property_absent _ _ Hkey).
    destruct (JsString.mem c object_prototype_keys) eqn:Hmem.
    - apply jsstring_mem_In in Hmem. contradiction.
    - destruct c; [congruence | reflexivity]. }
  assert (Herr : Yup.errors_at Field.pricePerKg (validateYupSchema (values st'))
                 = [error Field.pricePerKg Yup.t_required js"Required"]).
  { rewrite errors_at_form.
    cbn [schema_of option_map find fst snd Field.eqb OrderSchema
         prepareDataForValidation Yup.validate_value].
    rewrite Hprice. reflexivity. }
  split; [|split].
  - unfold rendered_total. rewrite Hprice. cbn [ToNumber].
    unfold calculatePrice. rewrite mul_NaN_r. reflexivity.
  - rewrite Herrs. exact Herr.
  - rewrite dispatch_submit_blocked; [split; reflexivity | exact Hs |].
    intros Hnil. rewrite Hnil in Herr. discriminate.
Qed.

Lemma unknown_category_renders_NaN_witness :
  reachable (run ann) /\
  js"Wish" <> [] /\
  ~ In js"Wish" (keys categoryPrices) /\
  ~ In js"Wish" object_prototype_keys /\
  rendered_total (dispatch (ChangeCategory js"Wish") (run ann)) = js"NaN".
Proof.
  assert (Hne : js"Wish" <> []) by discriminate.
  assert (Hkey : ~ In js"Wish" (keys categoryPrices)).
  { vm_compute. intuition discriminate. }
  assert (Hproto : ~ In js"Wish" object_prototype_keys).
  { vm_compute. intuition discriminate. }
  split; [exact reachable_ann|]. split; [exact Hne|].
  split; [exact Hkey|]. split; [exact Hproto|].
  exact (proj1 (unknown_category_renders_NaN (run ann) js"Wish"
                  reachable_ann Hne Hkey Hproto)).
Defined.

(** X12.  While no category is selected the price is 0 and the total
    renders as "0.00", whatever weight is entered, as long as it is not
    infinite; for an infinite weight it renders as "NaN". *)
Theorem no_category_renders_zero st :
  reachable st ->
  category (values st) = [] ->
  ((forall s, weight (values st) <> VNumber (S754_infinity s)) ->
   rendered_total st = js"0.00") /\
  ((exists s, weight (values st) = VNumber (S754_infinity s)) ->
   rendered_total st = js"NaN").
Proof.
  intros Hr Hc. destruct (reachable_settled st Hr) as [_ Hprice].
  rewrite Hc in Hprice. unfold rendered_total, calculatePrice.
  rewrite Hprice. cbn [derived_price JsString.truthy ToNumber].
  split.
  - intros Hfin.
    destruct (reachable_weight st Hr) as [Hw | [x [Hw Hnan]]]; rewrite Hw.
    + reflexivity.
    + cbn [ToNumber].
      destruct (mul_zero_r x false Hnan) as [s' Hmul].
      * intros sx Hx. apply (Hfin sx). now rewrite Hw, Hx.
      * unfold JsNumber.zero. rewrite Hmul. apply toFixed_zero.
  - intros [s Hw]. rewrite Hw. destruct s; reflexivity.
Qed.

Lemma no_category_renders_zero_witness :
  reachable (run rejected_inputs) /\
  category (values (run rejected_inputs)) = [] /\
  rendered_total (run rejected_inputs) = js"0.00" /\
  rendered_total (dispatch (ChangeWeight (S754_infinity false)) mounted) = js"NaN".
Proof.
  assert (Hc : category (values (run rejected_inputs)) = []).
  { vm_compute. reflexivity. }
  assert (Hfin : forall s, weight (values (run rejected_inputs))
                           <> VNumber (S754_infinity s)).
  { intros s. vm_compute. discriminate. }
  assert (Hr : reachable (dispatch (ChangeWeight (S754_infinity false)) mounted)).
  { constructor; [reflexivity | constructor]. }
  split; [exact reachable_rejected_inputs|]. split; [exact Hc|]. split.
  - exact (proj1 (no_category_renders_zero _ reachable_rejected_inputs Hc) Hfin).
  - apply (proj2 (no_category_renders_zero _ Hr eq_refl)).
    exists false. reflexivity.
Defined.

(** The rates and the 0 of the effect are finite numbers. *)
Lemma zero_times_table_price p :
  In p table_prices ->
  calculatePrice JsNumber.zero (ToNumber p) = js"0.00".
Proof.
  intros [<- | [<- | [<- | [<- | [<- | []]]]]]; vm_compute; reflexivity.
Qed.

(** X13.  Emptying the weight input stores the empty string, not NaN: the
    total then renders as "0.00", the weight fails with "Required", and a
    submission is blocked. *)
Theorem cleared_weight st :
  reachable st ->
  let st' := dispatch (ChangeWeight JsNumber.NaN) st in
  weight (values st') = VEmptyString /\
  rendered_total st' = js"0.00" /\
  Yup.errors_at Field.weight (errors st')
    = [error Field.weight Yup.t_required js"Required"] /\
  blocked st' (dispatch Submit st').
Proof.
  intros Hr st'.
  assert (Hr' : reachable st') by (constructor; [reflexivity | exact Hr]).
  assert (Hw : weight (values st') = VEmptyString).
  { unfold st', dispatch.
    destruct (effect_other_fields (handle (ChangeWeight JsNumber.NaN) st))
      as (_ & _ & _ & _ & _ & _ & _ & Hw & _). rewrite Hw. reflexivity. }
  assert (Herr : Yup.errors_at Field.weight (validateYupSchema (values st'))
                 = [error Field.weight Yup.t_required js"Required"]).
  { rewrite errors_at_form.
    cbn [schema_of option_map find fst snd Field.eqb OrderSchema
         prepareDataForValidation Yup.validate_value].
    rewrite Hw. reflexivity. }
  split; [exact Hw|]. split; [|split].
  - unfold rendered_total. rewrite Hw. cbn [ToNumber].
    apply zero_times_table_price. now apply reachable_price.
  - rewrite (reachable_errors st' Hr'). exact Herr.
  - rewrite dispatch_submit_blocked;
      [split; reflexivity | now apply reachable_settled |].
    intros Hnil. rewrite Hnil in Herr. discriminate.
Qed.

Lemma cleared_weight_witness :
  reachable (run ann) /\
  weight (values (dispatch (ChangeWeight JsNumber.NaN) (run ann))) = VEmptyString /\
  rendered_total (dispatch (ChangeWeight JsNumber.NaN) (run ann)) = js"0.00".
Proof.
  destruct (cleared_weight (run ann) reachable_ann) as (Hw & Htotal & _).
  split; [exact reachable_ann|]. split; assumption.
Defined.

(** ** The fields of the schema, as the form runs it *)

Lemma schema_of_username :
  schema_of Field.username
  = Some (Yup.string_ [Yup.s_min 2 js"Too Short!"; Yup.s_required js"Required"]).
Proof. reflexivity. Qed.

Lemma schema_of_tel :
  schema_of Field.tel
  = Some (Yup.string_ [Yup.s_min 5 js"Too Short!"; Yup.s_required js"Required"]).
Proof. reflexivity. Qed.

Lemma schema_of_email :
  schema_of Field.email
  = Some (Yup.string_ [Yup.s_email js"Invalid email"; Yup.s_required js"Required"]).
Proof. reflexivity. Qed.

Lemma schema_of_delivery :
  schema_of Field.delivery
  = Some (Yup.string_ [Yup.s_oneOf delivery_methods; Yup.s_required js"Required"]).
Proof. reflexivity. Qed.

Lemma schema_of_category :
  schema_of Field.category = Some (Yup.string_ [Yup.s_required js"Required"]).
Proof. reflexivity. Qed.

Lemma schema_of_weight :
  schema_of Field.weight
  = Some (Yup.number_ [Yup.n_min JsNumber.one_tenth js"Min 0.1kg";
                       Yup.n_required js"Required"]).
Proof. reflexivity. Qed.

(** A text field with [min(limit)] and [required]. *)
Lemma min_required_errors limit msg f (s : jsstring) :
  Yup.validate_string [Yup.s_min limit msg; Yup.s_required js"Required"]
    f None (blank_string s)
  = match s with
    | [] => [error f Yup.t_required js"Required"]
    | _ :: _ => if Nat.leb limit (List.length s) then []
                else [error f Yup.t_min msg]
    end.
Proof.
  destruct s as [|c r]; [reflexivity|].
  cbn [blank_string]. unfold Yup.validate_string, Yup.failing.
  cbn [filter Yup.is_oneOf negb Yup.string_test_ok].
  destruct (Nat.leb limit (List.length (c :: r))); reflexivity.
Qed.

(** X14.  The username and the tel, each with its own limit (2 and 5 code
    units): an empty value fails with "Required" alone, a shorter
    non-empty one with "Too Short!" alone, and any other passes. *)
Theorem username_tel_errors v :
  (username v = [] ->
   Yup.errors_at Field.username (validateYupSchema v)
     = [error Field.username Yup.t_required js"Required"]) /\
  (username v <> [] -> (List.length (username v) < 2)%nat ->
   Yup.errors_at Field.username (validateYupSchema v)
     = [error Field.username Yup.t_min js"Too Short!"]) /\
  ((2 <= List.length (username v))%nat ->
   Yup.errors_at Field.username (validateYupSchema v) = []) /\
  (tel v = [] ->
   Yup.errors_at Field.tel (validateYupSchema v)
     = [error Field.tel Yup.t_required js"Required"]) /\
  (tel v <> [] -> (List.length (tel v) < 5)%nat ->
   Yup.errors_at Field.tel (validateYupSchema v)
     = [error Field.tel Yup.t_min js"Too Short!"]) /\
  ((5 <= List.length (tel v))%nat ->
   Yup.errors_at Field.tel (validateYupSchema v) = []).
Proof.
  rewrite !errors_at_form, schema_of_username, schema_of_tel.
  cbn [prepareDataForValidation Yup.validate_value].
  rewrite !min_required_errors.
  assert (Htable : forall limit (s : jsstring) (bad : list Yup.ValidationError)
                          (req : list Yup.ValidationError),
    (1 <= limit)%nat ->
    let errs := match s with
                | [] => req
                | _ :: _ => if Nat.leb limit (List.length s) then [] else bad
                end in
    (s = [] -> errs = req) /\
    (s <> [] -> (List.length s < limit)%nat -> errs = bad) /\
    ((limit <= List.length s)%nat -> errs = [])).
  { intros limit s bad req Hlimit errs. unfold errs.
    destruct s as [|c r].
    - split; [reflexivity|]. split; [congruence | simpl; lia].
    - split; [discriminate|]. split.
      + intros _ Hlt. apply Nat.leb_gt in Hlt. now rewrite Hlt.
      + intros Hle. apply Nat.leb_le in Hle. now rewrite Hle. }
  destruct (Htable 2%nat (username v)
              [error Field.username Yup.t_min js"Too Short!"]
              [error Field.username Yup.t_required js"Required"])
    as (Hu1 & Hu2 & Hu3); [lia|].
  destruct (Htable 5%nat (tel v)
              [error Field.tel Yup.t_min js"Too Short!"]
              [error Field.tel Yup.t_required js"Required"])
    as (Ht1 & Ht2 & Ht3); [lia|].
  repeat split; assumption.
Qed.

Lemma username_tel_errors_witness :
  tel (order [] js"morning" []) <> [] /\
  (5 <= List.length (tel (order [] js"morning" [])))%nat /\
  Yup.errors_at Field.tel (validateYupSchema (order [] js"morning" [])) = [] /\
  username (values (run [ChangeUsername []])) = [] /\
  Yup.errors_at Field.username (validateYupSchema (values (run [ChangeUsername []])))
    = [error Field.username Yup.t_required js"Required"].
Proof.
  assert (Hne : tel (order [] js"morning" []) <> []) by discriminate.
  assert (Hlen : (5 <= List.length (tel (order [] js"morning" [])))%nat).
  { vm_compute. lia. }
  assert (Hu : username (values (run [ChangeUsername []])) = []).
  { vm_compute. reflexivity. }
  split; [exact Hne|]. split; [exact Hlen|]. split.
  - exact (proj2 (proj2 (proj2 (proj2 (proj2
             (username_tel_errors (order [] js"morning" [])))))) Hlen).
  - split; [exact Hu|].
    exact (proj1 (username_tel_errors (values (run [ChangeUsername []]))) Hu).
Defined.

(** X15.  The email: an empty value fails with "Required" alone, a
    non-empty one that does not match the pattern with "Invalid email"
    alone, and one that matches passes. *)
Theorem email_errors v :
  (email v = [] ->
   Yup.errors_at Field.email (validateYupSchema v)
     = [error Field.email Yup.t_required js"Required"]) /\
  (email v <> [] -> Yup.rEmail (email v) = false ->
   Yup.errors_at Field.email (validateYupSchema v)
     = [error Field.email Yup.t_email js"Invalid email"]) /\
  (Yup.rEmail (email v) = true ->
   Yup.errors_at Field.email (validateYupSchema v) = []).
Proof.
  rewrite errors_at_form, schema_of_email.
  cbn [prepareDataForValidation Yup.validate_value].
  destruct (email v) as [|c r] eqn:He.
  - split; [reflexivity|]. split; [congruence | discriminate].
  - cbn [blank_string]. unfold Yup.validate_string, Yup.failing.
    cbn [filter Yup.is_oneOf negb Yup.string_test_ok List.length Nat.eqb orb].
    split; [discriminate|].
    split; [intros _ H | intros H]; rewrite H; reflexivity.
Qed.

Lemma email_errors_witness :
  Yup.rEmail (email initialFormValues) = true /\
  Yup.errors_at Field.email (validateYupSchema initialFormValues) = [] /\
  email (values (run rejected_inputs)) <> [] /\
  Yup.rEmail (email (values (run rejected_inputs))) = false /\
  Yup.errors_at Field.email (validateYupSchema (values (run rejected_inputs)))
    = [error Field.email Yup.t_email js"Invalid email"].
Proof.
  assert (Hok : Yup.rEmail (email initialFormValues) = true).
  { vm_compute. reflexivity. }
  assert (Hne : email (values (run rejected_inputs)) <> []).
  { vm_compute. discriminate. }
  assert (Hbad : Yup.rEmail (email (values (run rejected_inputs))) = false).
  { vm_compute. reflexivity. }
  split; [exact Hok|].
  split; [exact (proj2 (proj2 (email_errors initialFormValues)) Hok)|].
  split; [exact Hne|]. split; [exact Hbad|].
  exact (proj1 (proj2 (email_errors (values (run rejected_inputs)))) Hne Hbad).
Defined.

(** X16.  The weight: the empty string of a cleared input fails with
    "Required" alone, a number below 0.1 (zero and negative numbers
    included) with "Min 0.1kg" alone, and a number of at least 0.1,
    infinite or not, passes. *)
Theorem weight_errors v :
  (weight v = VEmptyString ->
   Yup.errors_at Field.weight (validateYupSchema v)
     = [error Field.weight Yup.t_required js"Required"]) /\
  (forall x, weight v = VNumber x -> JsNumber.is_nan x = false ->
     JsNumber.geb x JsNumber.one_tenth = false ->
     Yup.errors_at Field.weight (validateYupSchema v)
       = [error Field.weight Yup.t_min js"Min 0.1kg"]) /\
  (forall x, weight v = VNumber x ->
     JsNumber.geb x JsNumber.one_tenth = true ->
     Yup.errors_at Field.weight (validateYupSchema v) = []).
Proof.
  rewrite errors_at_form, schema_of_weight.
  cbn [prepareDataForValidation Yup.validate_value].
  split; [|split].
  - intros ->. reflexivity.
  - intros x -> Hnan Hlow. cbn [blank_value Yup.validate_number].
    rewrite Hnan. cbn [flat_map Yup.number_test_errors]. now rewrite Hlow.
  - intros x -> Hge. cbn [blank_value Yup.validate_number].
    rewrite (geb_not_nan _ _ Hge).
    cbn [flat_map Yup.number_test_errors]. now rewrite Hge.
Qed.

Lemma weight_errors_witness :
  weight (order [] js"morning" []) = VNumber (JsNumber.of_Z 2) /\
  JsNumber.geb (JsNumber.of_Z 2) JsNumber.one_tenth = true /\
  Yup.errors_at Field.weight (validateYupSchema (order [] js"morning" [])) = [] /\
  weight (values (run [ChangeWeight (JsNumber.of_Z (-3))]))
    = VNumber (JsNumber.of_Z (-3)) /\
  JsNumber.geb (JsNumber.of_Z (-3)) JsNumber.one_tenth = false /\
  Yup.errors_at Field.weight
    (validateYupSchema (values (run [ChangeWeight (JsNumber.of_Z (-3))])))
    = [error Field.weight Yup.t_min js"Min 0.1kg"].
Proof.
  assert (Hw : weight (order [] js"morning" []) = VNumber (JsNumber.of_Z 2))
    by reflexivity.
  assert (Hge : JsNumber.geb (JsNumber.of_Z 2) JsNumber.one_tenth = true).
  { vm_compute. reflexivity. }
  assert (Hw' : weight (values (run [ChangeWeight (JsNumber.of_Z (-3))]))
                = VNumber (JsNumber.of_Z (-3))).
  { vm_compute. reflexivity. }
  assert (Hnan : JsNumber.is_nan (JsNumber.of_Z (-3)) = false).
  { vm_compute. reflexivity. }
  assert (Hlow : JsNumber.geb (JsNumber.of_Z (-3)) JsNumber.one_tenth = false).
  { vm_compute. reflexivity. }
  split; [exact Hw|]. split; [exact Hge|].
  split; [exact (proj2 (proj2 (weight_errors _)) _ Hw Hge)|].
  split; [exact Hw'|]. split; [exact Hlow|].
  exact (proj1 (proj2 (weight_errors _)) _ Hw' Hnan Hlow).
Defined.

(** X17.  The delivery method and the category.  An empty delivery fails
    with "Required" alone, a delivery that is none of pickup, courier,
    drone with the enumeration error alone, and one of the three passes;
    an empty category fails with "Required" and any other passes. *)
Theorem delivery_category_errors v :
  (delivery v = [] ->
   Yup.errors_at Field.delivery (validateYupSchema v)
     = [error Field.delivery Yup.t_required js"Required"]) /\
  (delivery v <> [] -> ~ In (delivery v) delivery_methods ->
   Yup.errors_at Field.delivery (validateYupSchema v)
     = [oneOf_error Field.delivery]) /\
  (In (delivery v) delivery_methods ->
   Yup.errors_at Field.delivery (validateYupSchema v) = []) /\
  (category v = [] ->
   Yup.errors_at Field.category (validateYupSchema v)
     = [error Field.category Yup.t_required js"Required"]) /\
  (category v <> [] ->
   Yup.errors_at Field.category (validateYupSchema v) = []).
Proof.
  rewrite !errors_at_form, schema_of_delivery, schema_of_category.
  cbn [prepareDataForValidation Yup.validate_value].
  assert (Hd : forall s : jsstring, s <> [] ->
    Yup.validate_string
      [Yup.s_oneOf delivery_methods; Yup.s_required js"Required"]
      Field.delivery None (blank_string s)
    = if JsString.mem s delivery_methods then []
      else [oneOf_error Field.delivery]).
  { intros s Hne. destruct s as [|c r]; [congruence|].
    cbn [blank_string]. unfold Yup.validate_string, Yup.failing.
    cbn [filter Yup.is_oneOf negb Yup.string_test_ok].
    destruct (JsString.mem (c :: r) delivery_methods); reflexivity. }
  split; [intros ->; reflexivity|].
  split; [|split; [|split]].
  - intros Hne Hout. rewrite (Hd _ Hne).
    destruct (JsString.mem (delivery v) delivery_methods) eqn:Hmem;
      [|reflexivity].
    apply jsstring_mem_In in Hmem. contradiction.
  - intros Hin.
    assert (Hne : delivery v <> []).
    { intros Heq. rewrite Heq in Hin.
      destruct Hin as [H | [H | [H | []]]]; discriminate. }
    rewrite (Hd _ Hne).
    apply jsstring_mem_In in Hin. now rewrite Hin.
  - intros ->. reflexivity.
  - intros Hne. destruct (category v); [congruence | reflexivity].
Qed.

Lemma delivery_category_errors_witness :
  In (delivery initialFormValues) delivery_methods /\
  Yup.errors_at Field.delivery (validateYupSchema initialFormValues) = [] /\
  category initialFormValues = [] /\
  Yup.errors_at Field.category (validateYupSchema initialFormValues)
    = [error Field.category Yup.t_required js"Required"].
Proof.
  assert (Hin : In (delivery initialFormValues) delivery_methods).
  { left. reflexivity. }
  assert (Hc : category initialFormValues = []) by reflexivity.
  split; [exact Hin|].
  split; [exact (proj1 (proj2 (proj2 (delivery_category_errors _))) Hin)|].
  split; [exact Hc|].
  exact (proj1 (proj2 (proj2 (proj2 (delivery_category_errors _)))) Hc).
Defined.

(** ** What the rendered elements can produce *)

(** X18.  The form never holds a value its elements cannot produce: the
    category, the delivery and the delivery time are among the options
    offered (the seed defaults are), the restrictions stay empty, the
    weight is a number that is not NaN or the empty string, and the price
    is 0 or a rate of the table.  So the delivery never has an error, and
    the delivery time has one only when it is empty. *)
Theorem form_holds_offered_values st :
  reachable st ->
  In (category (values st)) category_options /\
  In (delivery (values st)) delivery_options /\
  In (deliveryTime (values st)) deliveryTime_options /\
  restrictions (values st) = [] /\
  weight_entered (weight (values st)) /\
  In (pricePerKg (values st)) table_prices /\
  Yup.errors_at Field.delivery (errors st) = [] /\
  (In (deliveryTime (values st)) delivery_times \/ deliveryTime (values st) = []).
Proof.
  intros Hr.
  pose proof (reachable_delivery st Hr) as Hd.
  pose proof (reachable_deliveryTime st Hr) as Ht.
  split; [now apply reachable_category|]. split; [exact Hd|].
  split; [exact Ht|]. split; [now apply reachable_restrictions|].
  split; [now apply reachable_weight|]. split; [now apply reachable_price|].
  split.
  - rewrite (reachable_errors st Hr), errors_at_form, schema_of_delivery.
    cbn [prepareDataForValidation Yup.validate_value].
    destruct Hd as [<- | [<- | [<- | []]]]; reflexivity.
  - destruct Ht as [<- | Ht]; [right; reflexivity | left; exact Ht].
Qed.

Lemma form_holds_offered_values_witness :
  reachable (run ann) /\
  In (category (values (run ann))) category_options /\
  In (pricePerKg (values (run ann))) table_prices.
Proof.
  destruct (form_holds_offered_values (run ann) reachable_ann)
    as (Hc & _ & _ & _ & _ & Hp & _).
  split; [exact reachable_ann|]. split; assumption.
Defined.

(** ** Messages after a blocked submission *)

Lemma no_errors_anywhere (errs : list Yup.ValidationError) :
  (forall f, Yup.errors_at f errs = []) -> errs = [].
Proof.
  destruct errs as [|e rest]; [reflexivity|].
  intros H. specialize (H (Yup.err_field e)).
  unfold Yup.errors_at in H. simpl in H.
  unfold Field.eqb in H.
  destruct (Field.eq_dec (Yup.err_field e) (Yup.err_field e));
    [discriminate | congruence].
Qed.

(** In a reachable state every error belongs to a field that has a slot,
    or comes with one that does: [pricePerKg] fails only together with
    [category]. *)
Lemma slot_errors_suffice st :
  reachable st ->
  (forall f, In f inputs ->
             Yup.errors_at f (validateYupSchema (values st)) = []) ->
  validateYupSchema (values st) = [].
Proof.
  intros Hr Hslots. apply no_errors_anywhere. intros f.
  assert (Hcat : category (values st) <> []).
  { pose proof (Hslots Field.category) as H.
    rewrite errors_at_form, schema_of_category in H.
    cbn [prepareDataForValidation Yup.validate_value] in H.
    intros Heq. rewrite Heq in H.
    assert (Hin : In Field.category inputs) by (simpl; tauto).
    specialize (H Hin). discriminate. }
  destruct f; try (apply Hslots; simpl; tauto).
  - rewrite errors_at_form.
    cbn [prepareDataForValidation]. rewrite (reachable_restrictions st Hr).
    reflexivity.
  - destruct (selected_price_valid st Hr Hcat) as [_ [x [Hx Hge]]].
    rewrite errors_at_form. cbn [prepareDataForValidation]. rewrite Hx.
    assert (Hs : schema_of Field.pricePerKg
                 = Some (Yup.number_
                           [Yup.n_min JsNumber.one_tenth (js"Min 0.1 z" ++ [322%N]);
                            Yup.n_required js"Required"])) by reflexivity.
    rewrite Hs. cbn [Yup.validate_value blank_value Yup.validate_number].
    rewrite (geb_not_nan _ _ Hge).
    cbn [flat_map Yup.number_test_errors]. now rewrite Hge.
Qed.

(** X19.  A blocked submission always tells the user why.  Every field
    becomes touched, each slot shows the first error of its field, and at
    least one of the eight slots shows a message, although [pricePerKg]
    has no slot of its own. *)
Theorem blocked_submission_shows_messages st :
  reachable st ->
  ~ ready_to_submit (values st) ->
  let st' := dispatch Submit st in
  touched st' = Field.all /\
  (forall f, ErrorMessage f st'
             = hd_error (Yup.errors_at f (validateYupSchema (values st)))) /\
  exists f e, In f inputs /\ ErrorMessage f st' = Some e.
Proof.
  intros Hr Hnot st'.
  assert (Hbad : validateYupSchema (values st) <> []).
  { intros Hnil. apply Hnot. now apply (reachable_valid_iff st Hr). }
  assert (Hmsg : forall f, ErrorMessage f st'
                   = hd_error (Yup.errors_at f (validateYupSchema (values st)))).
  { intros f. unfold st'.
    rewrite (dispatch_submit_blocked st (reachable_settled st Hr) Hbad).
    now apply ErrorMessage_touched_all. }
  split; [|split; [exact Hmsg|]].
  - unfold st'.
    now rewrite (dispatch_submit_blocked st (reachable_settled st Hr) Hbad).
  - assert (Hsome : exists f, In f inputs /\
              Yup.errors_at f (validateYupSchema (values st)) <> []).
    { assert (Hdec : forall fs,
        (forall f, In f fs ->
           Yup.errors_at f (validateYupSchema (values st)) = []) \/
        (exists f, In f fs /\
           Yup.errors_at f (validateYupSchema (values st)) <> [])).
      { induction fs as [|f fs [IH | [g [Hg Hne]]]].
        - left. intros f [].
        - destruct (Yup.errors_at f (validateYupSchema (values st))) eqn:Hf.
          + left. intros g [<- | Hg]; [exact Hf | now apply IH].
          + right. exists f. split; [now left | rewrite Hf; discriminate].
        - right. exists g. split; [now right | exact Hne]. }
      destruct (Hdec inputs) as [Hall | Hsome]; [|exact Hsome].
      exfalso. apply Hbad. now apply slot_errors_suffice. }
    destruct Hsome as [f [Hin Hne]].
    destruct (Yup.errors_at f (validateYupSchema (values st)))
      as [|e rest] eqn:Hf; [congruence|].
    exists f, e. split; [exact Hin|]. rewrite Hmsg, Hf. reflexivity.
Qed.

Lemma blocked_submission_shows_messages_witness :
  reachable mounted /\
  ~ ready_to_submit (values mounted) /\
  touched (dispatch Submit mounted) = Field.all /\
  exists f e, In f inputs /\ ErrorMessage f (dispatch Submit mounted) = Some e.
Proof.
  assert (Hnot : ~ ready_to_submit (values mounted)).
  { intros H. apply (reachable_valid_iff _ reachable_mounted) in H.
    vm_compute in H. discriminate. }
  destruct (blocked_submission_shows_messages mounted reachable_mounted Hnot)
    as (Ht & _ & Hsome).
  split; [constructor|]. split; [exact Hnot|]. split; assumption.
Defined.

(** ** The restrictions, as the form runs the schema *)

Lemma validate_elements_at tests f (l : list (option jsstring)) :
  forall base i v,
    nth_error l i = Some v ->
    forall e, In e (Yup.validate_string tests f (Some (base + i)%nat) v) ->
              In e (Yup.validate_elements tests f base l).
Proof.
  induction l as [|v' r IH]; intros base i v Hnth e He.
  - destruct i; discriminate.
  - simpl. apply in_or_app. destruct i as [|i].
    + injection Hnth as ->. left. now rewrite Nat.add_0_r in He.
    + right. apply (IH (S base) i v Hnth).
      now replace (S base + i)%nat with (base + S i)%nat by lia.
Qed.

(** X20.  Were the restrictions ever filled, the form would accept them
    exactly when every token that is not the empty string is one of
    vegan, gluten-free, nut-free (an empty string reaches the schema as
    [undefined]); a non-empty token outside the set raises the
    enumeration error at its own index in the array. *)
Theorem restrictions_through_the_form v :
  (Yup.errors_at Field.restrictions (validateYupSchema v) = [] <->
   Forall (fun token => token = [] \/ In token restriction_tokens)
          (restrictions v)) /\
  (forall i token,
     nth_error (restrictions v) i = Some token ->
     token <> [] -> ~ In token restriction_tokens ->
     In {| Yup.err_field := Field.restrictions; Yup.err_index := Some i;
           Yup.err_type := Yup.t_oneOf; Yup.err_message := None |}
        (validateYupSchema v)).
Proof.
  split; [apply restrictions_in_the_form|].
  intros i token Hnth Hne Hout.
  assert (Hat : In {| Yup.err_field := Field.restrictions;
                      Yup.err_index := Some i;
                      Yup.err_type := Yup.t_oneOf; Yup.err_message := None |}
                   (Yup.errors_at Field.restrictions (validateYupSchema v))).
  { rewrite errors_at_form.
    assert (Hs : schema_of Field.restrictions
                 = Some (Yup.array_of_string [Yup.s_oneOf restriction_tokens]))
      by reflexivity.
    rewrite Hs. cbn [prepareDataForValidation Yup.validate_value].
    apply (validate_elements_at _ _ _ 0%nat i (blank_string token)).
    - rewrite nth_error_map, Hnth. reflexivity.
    - destruct token as [|c r]; [congruence|].
      cbn [blank_string Nat.add]. unfold Yup.validate_string, Yup.failing.
      cbn [filter Yup.is_oneOf negb Yup.string_test_ok].
      destruct (JsString.mem (c :: r) restriction_tokens) eqn:Hmem.
      + apply jsstring_mem_In in Hmem. contradiction.
      + left. reflexivity. }
  unfold Yup.errors_at in Hat. apply filter_In in Hat. tauto.
Qed.

Lemma restrictions_through_the_form_witness :
  nth_error (restrictions (order [js"vegan"; js"halal"] js"morning" [])) 1
    = Some js"halal" /\
  js"halal" <> [] /\
  ~ In js"halal" restriction_tokens /\
  In {| Yup.err_field := Field.restrictions; Yup.err_index := Some 1%nat;
        Yup.err_type := Yup.t_oneOf; Yup.err_message := None |}
     (validateYupSchema (order [js"vegan"; js"halal"] js"morning" [])).
Proof.
  assert (Hnth : nth_error (restrictions (order [js"vegan"; js"halal"] js"morning" []))
                   1 = Some js"halal") by reflexivity.
  assert (Hne : js"halal" <> []) by discriminate.
  assert (Hout : ~ In js"halal" restriction_tokens).
  { vm_compute. intuition discriminate. }
  split; [exact Hnth|]. split; [exact Hne|]. split; [exact Hout|].
  exact (proj2 (restrictions_through_the_form _) 1%nat js"halal" Hnth Hne Hout).
Defined.
